(** * prometheus-nftables-exporter: the scrape pipeline and the HTTP handler

    A shallow embedding of [prometheus-nftables-exporter.py].  The program keeps
    one global [Context] object ([ctx]) whose fields [ruleset] and [metrics] are
    overwritten and appended to by the functions below; the embedding threads
    that object, together with a trace of the effects performed (engine calls,
    logging calls, what the handler sends), through a state-and-exception monad.

    What the program obtains from its libraries is data of the model:
    - the reply of [ctx.nft.cmd("list ruleset")] and what [json.loads] makes of
      its output ([nft_reply]);
    - the result of [urllib.parse.urlparse] on the request target ([request]);
    - Python's [repr] of a [str], which only shows when a label value is a list
      or a dict (Section variable [py_repr_str]);
    - which characters the codec of [sys.stdout] can encode, which decides
      whether [print] raises (Section variable [stdout_encodable]). *)

From Stdlib Require Import List NArith ZArith Ascii Bool Lia DecimalString.
From Stdlib Require String DecimalZ DecimalPos.
Import ListNotations String.StringSyntax.
Delimit Scope string_scope with string.
Open Scope list_scope.
Set Warnings "-register-all".

(** ** Python strings and bytes *)

(** A Python [str] is a sequence of Unicode code points (each below 0x110000,
    lone surrogates included: [json.loads] produces them from an escape such as
    \ud800). *)
Definition pystr := list N.

(** A [bytes] object, each element below 256. *)
Definition pybytes := list N.

(** An ASCII literal of the source as a [str]. *)
Definition lit (s : String.string) : pystr :=
  map N_of_ascii (String.list_ascii_of_string s).
Arguments lit s%_string.

(** The double quote and the newline. *)
Definition dquote : N := 34.
Definition newline : N := 10.
Definition backslash : N := 92.

(** [q s] is [s] between double quotes, as the format templates write each
    label value. *)
Definition q (s : pystr) : pystr := dquote :: s ++ [dquote].

Fixpoint pystr_eqb (a b : pystr) : bool :=
  match a, b with
  | [], [] => true
  | x :: a', y :: b' => N.eqb x y && pystr_eqb a' b'
  | _, _ => false
  end.

Fixpoint is_prefix (p s : pystr) : bool :=
  match p, s with
  | [], _ => true
  | x :: p', y :: s' => N.eqb x y && is_prefix p' s'
  | _ :: _, [] => false
  end.

(** [sub in s] on two strings: [sub] occurs in [s] as a contiguous run. *)
Fixpoint is_substring (sub s : pystr) : bool :=
  is_prefix sub s ||
  match s with
  | [] => false
  | _ :: s' => is_substring sub s'
  end.

(** [sep.join(l)]. *)
Fixpoint join (sep : pystr) (l : list pystr) : pystr :=
  match l with
  | [] => []
  | [x] => x
  | x :: l' => x ++ sep ++ join sep l'
  end.

(** [str(z)] of a Python [int]. *)
Definition str_of_int (z : Z) : pystr := lit (NilZero.string_of_int (Z.to_int z)).

(** ** Exceptions *)

Inductive pyexn : Type :=
| KeyError
| TypeError
| AttributeError
| ValueError
| JSONDecodeError
| RecursionError
| UnicodeEncodeError.

Inductive result (A : Type) : Type :=
| Ok (a : A)
| Raise (e : pyexn).
Arguments Ok {A} a.
Arguments Raise {A} e.

Definition rbind {A B} (r : result A) (f : A -> result B) : result B :=
  match r with
  | Ok a => f a
  | Raise e => Raise e
  end.

Declare Scope result_scope.
Delimit Scope result_scope with result.
Notation "x <-? c ;; k" := (rbind c (fun x => k))
  (at level 61, c at next level, right associativity) : result_scope.

Fixpoint mapM {A B} (f : A -> result B) (l : list A) : result (list B) :=
  match l with
  | [] => Ok []
  | a :: l' =>
      (b <-? f a ;;
       bs <-? mapM f l' ;;
       Ok (b :: bs))%result
  end.

(** [s.encode("utf-8")]: the strict UTF-8 codec refuses surrogates. *)
Definition encode_code_point (c : N) : result pybytes :=
  if (c <? 128)%N then Ok [c]
  else if (c <? 2048)%N then Ok [192 + c / 64; 128 + c mod 64]%N
  else if (c <? 65536)%N then
    if ((55296 <=? c) && (c <? 57344))%N then Raise UnicodeEncodeError
    else Ok [224 + c / 4096; 128 + (c / 64) mod 64; 128 + c mod 64]%N
  else if (c <? 1114112)%N then
    Ok [240 + c / 262144; 128 + (c / 4096) mod 64; 128 + (c / 64) mod 64; 128 + c mod 64]%N
  else Raise UnicodeEncodeError.

Definition encode_utf8 (s : pystr) : result pybytes :=
  (bs <-? mapM encode_code_point s ;; Ok (concat bs))%result.

(** ** Parsed JSON *)

(** The values [json.loads] returns.  A [float] is kept as the text [str] gives
    for it, the only thing this program does with one.  A [dict] keeps its
    items in insertion order, one item per key. *)
Inductive json : Type :=
| JNull
| JBool (b : bool)
| JInt (z : Z)
| JFloat (text : pystr)
| JStr (s : pystr)
| JArr (l : list json)
| JObj (d : list (pystr * json)).

Fixpoint dict_get (k : pystr) (d : list (pystr * json)) : option json :=
  match d with
  | [] => None
  | (k', v) :: d' => if pystr_eqb k k' then Some v else dict_get k d'
  end.

Definition dict_has (k : pystr) (d : list (pystr * json)) : bool :=
  match dict_get k d with
  | Some _ => true
  | None => false
  end.

(** [o[k]] for a [str] key [k]: only a [dict] can be subscripted by a [str]. *)
Definition subscript (o : json) (k : pystr) : result json :=
  match o with
  | JObj d =>
      match dict_get k d with
      | Some v => Ok v
      | None => Raise KeyError
      end
  | _ => Raise TypeError
  end.

(** [iter(o)]: the elements of a list, the keys of a dict, the characters of a
    string; nothing else iterates. *)
Definition py_iter (o : json) : result (list json) :=
  match o with
  | JArr l => Ok l
  | JObj d => Ok (map (fun kv => JStr (fst kv)) d)
  | JStr s => Ok (map (fun c => JStr [c]) s)
  | _ => Raise TypeError
  end.

(** [k == o] for a [str] [k]. *)
Definition str_eq_json (k : pystr) (o : json) : bool :=
  match o with
  | JStr s => pystr_eqb k s
  | _ => false
  end.

(** [k in o] for a [str] [k]: key membership in a dict, element membership in
    a list, substring of a string, [TypeError] otherwise. *)
Definition py_in (k : pystr) (o : json) : result bool :=
  match o with
  | JObj d => Ok (dict_has k d)
  | JArr l => Ok (existsb (str_eq_json k) l)
  | JStr s => Ok (is_substring k s)
  | _ => Raise TypeError
  end.

(** [[o for o in l if k in o]]. *)
Fixpoint filter_in (k : pystr) (l : list json) : result (list json) :=
  match l with
  | [] => Ok []
  | o :: l' =>
      (b <-? py_in k o ;;
       os <-? filter_in k l' ;;
       Ok (if b then o :: os else os))%result
  end.

(** A standard output that encodes with strict UTF-8, for the examples at the
    end. *)
Definition utf8_encodable (c : N) : bool :=
  match encode_code_point c with
  | Ok _ => true
  | Raise _ => false
  end.

(** An instance of Python's [repr] on [str] for the examples at the end: exact
    on strings of printable characters without quote or backslash. *)
Definition repr_str_plain (s : pystr) : pystr := 39%N :: s ++ [39%N].

(** ** The program state and its effects *)

(** [class Context]: the fields the pipeline reads and writes.  [ruleset] and
    [metrics] start as [None] ([JNull] and [None] here); [args] and [nft] are
    configuration set once in [main]. *)
Record Context : Type := mkContext {
  ruleset : json;
  metrics : option (list pystr)
}.

(** What a request handler passes to [self.wfile.write]. *)
Inductive pyval : Type :=
| PyBytes (b : pybytes)
| PyStr (s : pystr).

(** The effects the program performs, in the order it performs them.
    [SendResponse] stands for the status line with the [Server] and [Date]
    headers [send_response] adds; a logging call is recorded whatever the
    level [configure_logging] has set. *)
Inductive event : Type :=
| NftCmd (cmd : pystr)                 (* ctx.nft.cmd(cmd) *)
| LogDebug (msg : pystr)               (* logging.debug(msg) *)
| LogError (msg : pystr)               (* logging.error(msg) *)
| SendResponse (code : Z)              (* self.send_response(code) *)
| SendHeader (key value : pystr)       (* self.send_header(key, value) *)
| EndHeaders                           (* self.end_headers() *)
| WfileWrite (b : pybytes)             (* self.wfile.write(b) *)
| Print (s : pystr).                   (* print(s) *)

Record world : Type := mkWorld {
  ctx : Context;
  trace : list event
}.

(** A computation reads and updates the world and either returns or raises;
    what it did before raising stays done. *)
Definition M (A : Type) : Type := world -> result A * world.

Definition ret {A} (a : A) : M A := fun w => (Ok a, w).

Definition raise {A} (e : pyexn) : M A := fun w => (Raise e, w).

Definition bind {A B} (m : M A) (f : A -> M B) : M B :=
  fun w =>
    match m w with
    | (Ok a, w') => f a w'
    | (Raise e, w') => (Raise e, w')
    end.

Declare Scope py_scope.
Delimit Scope py_scope with py.
Notation "x <- c ;; k" := (bind c (fun x => k))
  (at level 61, c at next level, right associativity) : py_scope.
Notation "c ;; k" := (bind c (fun _ => k))
  (at level 61, right associativity) : py_scope.

Definition lift {A} (r : result A) : M A := fun w => (r, w).

(** [try: body except Exception: handler]. *)
Definition try_except {A} (body : M A) (handler : pyexn -> M A) : M A :=
  fun w =>
    match body w with
    | (Ok a, w') => (Ok a, w')
    | (Raise e, w') => handler e w'
    end.

Definition emit (e : event) : M unit :=
  fun w => (Ok tt, mkWorld (ctx w) (trace w ++ [e])).

Definition get_ruleset : M json := fun w => (Ok (ruleset (ctx w)), w).

Definition set_ruleset (j : json) : M unit :=
  fun w => (Ok tt, mkWorld (mkContext j (metrics (ctx w))) (trace w)).

Definition set_metrics (m : list pystr) : M unit :=
  fun w => (Ok tt, mkWorld (mkContext (ruleset (ctx w)) (Some m)) (trace w)).

(** The lookup of the method in [ctx.metrics.append(...)], which Python does
    before it evaluates the argument of the call: [None] has no [append]. *)
Definition lookup_append : M unit :=
  fun w =>
    match metrics (ctx w) with
    | Some _ => (Ok tt, w)
    | None => (Raise AttributeError, w)
    end.

(** The call of [ctx.metrics.append] with the line it is given. *)
Definition metrics_append (line : pystr) : M unit :=
  fun w =>
    match metrics (ctx w) with
    | Some m => (Ok tt, mkWorld (mkContext (ruleset (ctx w)) (Some (m ++ [line]))) (trace w))
    | None => (Raise AttributeError, w)
    end.

(** [for i in l: body(i)]. *)
Fixpoint for_each {A} (l : list A) (body : A -> M unit) : M unit :=
  match l with
  | [] => ret tt
  | i :: l' => (body i ;; for_each l' body)%py
  end.

(** ** The query engine and the request *)

(** What [ctx.nft.cmd("list ruleset")] returns, [(rc, output, error)], with
    [loads], the outcome of [json.loads(output)]: the parsed document or the
    exception raised. *)
Record nft_reply : Type := mkReply {
  rc : Z;
  output : pystr;
  error : pystr;
  loads : result json
}.

(** [urllib.parse.urlparse(self.path)]. *)
Record ParseResult : Type := mkUrl {
  scheme : pystr;
  netloc : pystr;
  path : pystr;
  params : pystr;
  query : pystr;
  fragment : pystr
}.

(** A GET request: the request target [self.path] and what [urlparse] makes
    of it, a [ParseResult] or the [ValueError] it raises on a malformed
    bracketed host. *)
Record request : Type := mkRequest {
  target : pystr;
  url : result ParseResult
}.

(** [prometheus_client.CONTENT_TYPE_LATEST]. *)
Definition CONTENT_TYPE_LATEST : pystr := lit "text/plain; version=0.0.4; charset=utf-8".

(** The landing page of [do_GET], a triple-quoted literal of seven lines. *)
Definition landing_page : pystr :=
  lit "<html>" ++ [newline] ++
  lit "            <head><title>prometheus nftables exporter</title></head>" ++ [newline] ++
  lit "            <body>" ++ [newline] ++
  lit "            <h1>prometheus nftables exporter</h1>" ++ [newline] ++
  lit "            <p>Visit <code>/metrics</code> to use.</p>" ++ [newline] ++
  lit "            </body>" ++ [newline] ++
  lit "            </html>".

(** The name a traceback prints for an exception. *)
Definition exn_name (e : pyexn) : pystr :=
  match e with
  | KeyError => lit "KeyError"
  | TypeError => lit "TypeError"
  | AttributeError => lit "AttributeError"
  | ValueError => lit "ValueError"
  | JSONDecodeError => lit "json.decoder.JSONDecodeError"
  | RecursionError => lit "RecursionError"
  | UnicodeEncodeError => lit "UnicodeEncodeError"
  end.

(** [traceback.format_exc()] inside an [except] block: a [str] whose last line
    names the exception; the lines for the stack frames are left out. *)
Definition format_exc (e : pyexn) : pystr :=
  lit "Traceback (most recent call last):" ++ [newline] ++ exn_name e ++ [newline].

(** [self.wfile.write(v)]: the socket writer takes a bytes-like object and
    raises [TypeError] on a [str]. *)
Definition wfile_write (v : pyval) : M unit :=
  match v with
  | PyBytes b => emit (WfileWrite b)
  | PyStr _ => raise TypeError
  end.

(** ** Sample data *)

(** The body of a JSON string literal. *)
Definition json_string_body (s : pystr) : pystr :=
  flat_map (fun c =>
    if (c =? dquote)%N then [backslash; dquote]
    else if (c =? backslash)%N then [backslash; backslash]
    else if (c =? newline)%N then [backslash; 110%N]
    else [c]) s.

(** The JSON text of a document in the compact form the engine prints; of the
    characters of a string only the double quote, the backslash and the
    newline are escaped (the samples hold no other control character). *)
Fixpoint json_text (j : json) : pystr :=
  match j with
  | JNull => lit "null"
  | JBool true => lit "true"
  | JBool false => lit "false"
  | JInt z => str_of_int z
  | JFloat text => text
  | JStr s => q (json_string_body s)
  | JArr l => lit "[" ++ join (lit ", ") (map json_text l) ++ lit "]"
  | JObj d =>
      lit "{" ++
      join (lit ", ")
        (map (fun '(k, v) => q (json_string_body k) ++ lit ": " ++ json_text v) d) ++
      lit "}"
  end.

(** The reply of an engine that succeeded and listed the entities [l]. *)
Definition reply_listing (l : list json) : nft_reply :=
  let doc := JObj [(lit "nftables", JArr l)] in
  mkReply 0 (json_text doc) [] (Ok doc).

(** The reply of an engine that failed (status -1, no output, a diagnostic). *)
Definition reply_failed : nft_reply :=
  mkReply (-1) [] (lit "Error: Could not process rule: Operation not permitted")
    (Raise JSONDecodeError).

(** The reply of an engine that reports a failure next to a well-formed,
    empty listing. *)
Definition reply_failed_with_listing : nft_reply :=
  let doc := JObj [(lit "nftables", JArr [])] in
  mkReply (-1) (json_text doc) (lit "Error: Could not process rule: Operation not permitted")
    (Ok doc).

Definition sample_metainfo : json :=
  JObj [(lit "metainfo",
         JObj [(lit "version", JStr (lit "1.0.9"));
               (lit "release_name", JStr (lit "Old Doc Yak #3"));
               (lit "json_schema_version", JInt 1)])].

Definition sample_table : json :=
  JObj [(lit "table",
         JObj [(lit "family", JStr (lit "ip")); (lit "name", JStr (lit "filter"));
               (lit "handle", JInt 1)])].

Definition sample_chain : json :=
  JObj [(lit "chain",
         JObj [(lit "family", JStr (lit "ip")); (lit "table", JStr (lit "filter"));
               (lit "name", JStr (lit "input")); (lit "handle", JInt 1)])].

Definition sample_counter : json :=
  JObj [(lit "counter",
         JObj [(lit "family", JStr (lit "inet")); (lit "table", JStr (lit "t1"));
               (lit "name", JStr (lit "c1")); (lit "handle", JInt 2);
               (lit "packets", JInt 42); (lit "bytes", JInt 1000)])].

Definition sample_second_counter : json :=
  JObj [(lit "counter",
         JObj [(lit "family", JStr (lit "inet")); (lit "table", JStr (lit "t1"));
               (lit "name", JStr (lit "c2")); (lit "handle", JInt 3);
               (lit "packets", JInt 0); (lit "bytes", JInt 0)])].

Definition sample_rule : json :=
  JObj [(lit "rule",
         JObj [(lit "family", JStr (lit "ip")); (lit "table", JStr (lit "filter"));
               (lit "chain", JStr (lit "input")); (lit "handle", JInt 4);
               (lit "expr", JArr [])])].

(** A table whose name holds a backslash: [a\b]. *)
Definition sample_backslash_table : json :=
  JObj [(lit "table",
         JObj [(lit "family", JStr (lit "ip"));
               (lit "name", JStr (lit "a" ++ [backslash] ++ lit "b"));
               (lit "handle", JInt 5)])].

(** A table whose name is a lone surrogate, as [json.loads] makes of the
    escape \ud800. *)
Definition sample_surrogate_table : json :=
  JObj [(lit "table",
         JObj [(lit "family", JStr (lit "ip")); (lit "name", JStr [55296%N]);
               (lit "handle", JInt 6)])].

(** A table listed without its name. *)
Definition sample_nameless_table : json :=
  JObj [(lit "table", JObj [(lit "family", JStr (lit "ip")); (lit "handle", JInt 7)])].

(** A counter listed with its packets but without its bytes. *)
Definition sample_counter_without_bytes : json :=
  JObj [(lit "counter",
         JObj [(lit "family", JStr (lit "inet")); (lit "table", JStr (lit "t1"));
               (lit "name", JStr (lit "c3")); (lit "handle", JInt 8);
               (lit "packets", JInt 7)])].

(** A table object with just the two fields the exporter reads. *)
Definition table_entity (family name : pystr) : json :=
  JObj [(lit "table", JObj [(lit "family", JStr family); (lit "name", JStr name)])].

(** The reply of an engine that succeeded and printed the document [doc]. *)
Definition reply_document (doc : json) : nft_reply :=
  mkReply 0 (json_text doc) [] (Ok doc).

(** The sample chain and the sample counter listed without their handles. *)
Definition sample_bare_chain : json :=
  JObj [(lit "chain",
         JObj [(lit "family", JStr (lit "ip")); (lit "table", JStr (lit "filter"));
               (lit "name", JStr (lit "input"))])].

Definition sample_bare_counter : json :=
  JObj [(lit "counter",
         JObj [(lit "family", JStr (lit "inet")); (lit "table", JStr (lit "t1"));
               (lit "name", JStr (lit "c1"));
               (lit "packets", JInt 42); (lit "bytes", JInt 1000)])].

(** A snapshot with the kinds interleaved. *)
Definition sample_snapshot : list json :=
  [sample_metainfo; sample_chain; sample_table; sample_counter; sample_rule;
   sample_second_counter].

(** The lines of the samples. *)
Definition line_table_filter : pystr :=
  lit "nft_table{family=" ++ q (lit "ip") ++ lit ", name=" ++ q (lit "filter") ++ lit "} 1".

Definition line_chain_input : pystr :=
  lit "nft_chain{family=" ++ q (lit "ip") ++ lit ", table=" ++ q (lit "filter") ++
  lit ", name=" ++ q (lit "input") ++ lit "} 1".

Definition line_counter (metric name value : pystr) : pystr :=
  metric ++ lit "{family=" ++ q (lit "inet") ++ lit ", table=" ++ q (lit "t1") ++
  lit ", name=" ++ q name ++ lit "} " ++ value.

(** The process right after [main] has configured it. *)
Definition initial_world : world := mkWorld (mkContext JNull None) [].

Definition plain_url (p : pystr) : ParseResult := mkUrl [] [] p [] [] [].

Definition get_metrics : request :=
  mkRequest (lit "/metrics") (Ok (plain_url (lit "/metrics"))).

Definition get_metrics_with_query : request :=
  mkRequest (lit "/metrics?x=y") (Ok (mkUrl [] [] (lit "/metrics") [] (lit "x=y") [])).

(** A request in absolute form whose bracketed host is not closed:
    [urlparse] raises [ValueError] on it. *)
Definition get_bad_host : request :=
  mkRequest (lit "http://[::1/metrics") (Raise ValueError).

Definition get_root : request := mkRequest (lit "/") (Ok (plain_url (lit "/"))).

Definition get_favicon : request :=
  mkRequest (lit "/favicon.ico") (Ok (plain_url (lit "/favicon.ico"))).

(** ** The pipeline *)

Section Exporter.

(** Python's [repr] of a [str] (quotes chosen by content, escapes by the
    Unicode database). *)
Variable py_repr_str : pystr -> pystr.

(** The characters the codec of [sys.stdout] encodes, under the error handler
    the process was started with. *)
Variable stdout_encodable : N -> bool.

(** [repr(j)] of a parsed JSON value. *)
Fixpoint py_repr (j : json) : pystr :=
  match j with
  | JNull => lit "None"
  | JBool true => lit "True"
  | JBool false => lit "False"
  | JInt z => str_of_int z
  | JFloat text => text
  | JStr s => py_repr_str s
  | JArr l => lit "[" ++ join (lit ", ") (map py_repr l) ++ lit "]"
  | JObj d =>
      lit "{" ++
      join (lit ", ") (map (fun '(k, v) => py_repr_str k ++ lit ": " ++ py_repr v) d) ++
      lit "}"
  end.

(** What a [{}] replacement field of [str.format] renders for a value:
    [str(j)], which is the string itself for a [str] and [repr(j)] otherwise. *)
Definition py_str (j : json) : pystr :=
  match j with
  | JStr s => s
  | _ => py_repr j
  end.

(** [i[kind][name]]. *)
Definition field (i : json) (kind name : pystr) : result json :=
  (e <-? subscript i kind ;; subscript e name)%result.

(** [load_nft_ruleset()] against the engine's reply [r]. *)
Definition load_nft_ruleset (r : nft_reply) : M unit :=
  (emit (LogDebug (lit "loading nft ruleset")) ;;
   emit (NftCmd (lit "list ruleset")) ;;
   (if (rc r =? 0)%Z then ret tt else emit (LogError (error r))) ;;
   emit (LogDebug (output r)) ;;
   doc <- lift (loads r) ;;
   v <- lift (subscript doc (lit "nftables")) ;;
   set_ruleset v)%py.

(** [_find_objs(type)]. *)
Definition _find_objs (type : pystr) : M (list json) :=
  (rs <- get_ruleset ;;
   lift (os <-? py_iter rs ;; filter_in type os)%result)%py.

(** The argument of [ctx.metrics.append] in [generate_table_metrics]. *)
Definition table_line (i : json) : result pystr :=
  (family <-? field i (lit "table") (lit "family") ;;
   name <-? field i (lit "table") (lit "name") ;;
   Ok (lit "nft_table{family=" ++ q (py_str family) ++
       lit ", name=" ++ q (py_str name) ++ lit "} 1"))%result.

Definition generate_table_metrics : M unit :=
  (objs <- _find_objs (lit "table") ;;
   for_each objs (fun i =>
     lookup_append ;; line <- lift (table_line i) ;; metrics_append line))%py.

(** The argument of [ctx.metrics.append] in [generate_chain_metrics]. *)
Definition chain_line (i : json) : result pystr :=
  (family <-? field i (lit "chain") (lit "family") ;;
   table <-? field i (lit "chain") (lit "table") ;;
   name <-? field i (lit "chain") (lit "name") ;;
   Ok (lit "nft_chain{family=" ++ q (py_str family) ++
       lit ", table=" ++ q (py_str table) ++
       lit ", name=" ++ q (py_str name) ++ lit "} 1"))%result.

Definition generate_chain_metrics : M unit :=
  (objs <- _find_objs (lit "chain") ;;
   for_each objs (fun i =>
     lookup_append ;; line <- lift (chain_line i) ;; metrics_append line))%py.

(** The arguments of the two [ctx.metrics.append] calls in
    [generate_counter_metrics]: [metric] is [nft_counter_packets] with
    [value] [packets], then [nft_counter_bytes] with [bytes]. *)
Definition counter_line (metric value : pystr) (i : json) : result pystr :=
  (family <-? field i (lit "counter") (lit "family") ;;
   table <-? field i (lit "counter") (lit "table") ;;
   name <-? field i (lit "counter") (lit "name") ;;
   v <-? field i (lit "counter") value ;;
   Ok (metric ++ lit "{family=" ++ q (py_str family) ++
       lit ", table=" ++ q (py_str table) ++
       lit ", name=" ++ q (py_str name) ++ lit "} " ++ py_str v))%result.

Definition generate_counter_metrics : M unit :=
  (objs <- _find_objs (lit "counter") ;;
   for_each objs (fun i =>
     lookup_append ;;
     packets <- lift (counter_line (lit "nft_counter_packets") (lit "packets") i) ;;
     metrics_append packets ;;
     lookup_append ;;
     bytes <- lift (counter_line (lit "nft_counter_bytes") (lit "bytes") i) ;;
     metrics_append bytes))%py.

Definition generate_metrics (r : nft_reply) : M unit :=
  (set_metrics [] ;;
   load_nft_ruleset r ;;
   generate_table_metrics ;;
   generate_chain_metrics ;;
   generate_counter_metrics)%py.

(** ["\n".join(ctx.metrics)]: [join] needs an iterable. *)
Definition joined_metrics : M pystr :=
  fun w =>
    match metrics (ctx w) with
    | Some m => (Ok (join [newline] m), w)
    | None => (Raise TypeError, w)
    end.

(** [PrometheusNftablesExporterHttpHandler.do_GET] for the request [req],
    the engine answering [r] if it is asked. *)
Definition do_GET (req : request) (r : nft_reply) : M unit :=
  (url <- lift (url req) ;;
   if pystr_eqb (path url) (lit "/metrics") then
     try_except
       (generate_metrics r ;;
        emit (SendResponse 200) ;;
        emit (SendHeader (lit "Content-Type") CONTENT_TYPE_LATEST) ;;
        emit EndHeaders ;;
        text <- joined_metrics ;;
        body <- lift (encode_utf8 text) ;;
        wfile_write (PyBytes body))
       (fun e =>
          emit (SendResponse 500) ;;
          emit EndHeaders ;;
          wfile_write (PyStr (format_exc e)))
   else if pystr_eqb (path url) (lit "/") then
     emit (SendResponse 200) ;;
     emit EndHeaders ;;
     body <- lift (encode_utf8 landing_page) ;;
     wfile_write (PyBytes body)
   else
     emit (SendResponse 404) ;;
     emit EndHeaders)%py.

(** [print(text)]: the text goes to [sys.stdout], which encodes it as it is
    written; when a character of the text has no encoding the write raises
    [UnicodeEncodeError] and nothing of the text is printed.  The newline
    [print] adds always encodes. *)
Definition print (text : pystr) : M unit :=
  fun w =>
    if forallb stdout_encodable text then emit (Print text) w
    else (Raise UnicodeEncodeError, w).

(** [main()] with [--run-once]: the exit status of the process, 0 from
    [exit(0)] and 1 when an exception reaches the top level. *)
Definition run_once (r : nft_reply) (w : world) : Z * world :=
  match (generate_metrics r ;;
         text <- joined_metrics ;;
         print text)%py w with
  | (Ok _, w') => (0%Z, w')
  | (Raise _, w') => (1%Z, w')
  end.

(** The body [do_GET] computes for [/metrics]: the pipeline of its [try]
    block without the writes to the connection. *)
Definition scrape (r : nft_reply) : M pybytes :=
  (generate_metrics r ;;
   text <- joined_metrics ;;
   lift (encode_utf8 text))%py.

(** [ForkingHTTPServer]: every request is handled by [do_GET] in a forked
    child, on a copy of the parent's [ctx]; the parent keeps its own.  The
    result is what the child did, in order, and the exception that ended the
    child, if one did. *)
Definition process_request (parent : Context) (req : request) (r : nft_reply)
  : list event * option pyexn :=
  match do_GET req r (mkWorld parent []) with
  | (Ok _, w') => (trace w', None)
  | (Raise e, w') => (trace w', Some e)
  end.


(** ** Reading the output *)

(** The events that go to the client's connection. *)
Definition on_wire (e : event) : bool :=
  match e with
  | SendResponse _ | SendHeader _ _ | EndHeaders | WfileWrite _ => true
  | _ => false
  end.

Definition wire (t : list event) : list event := filter on_wire t.

(** The metric name of an exposition line: the text before its first brace. *)
Fixpoint metric_name (line : pystr) : pystr :=
  match line with
  | [] => []
  | c :: rest => if (c =? 123)%N then [] else c :: metric_name rest
  end.

Definition count_name (name : pystr) (ms : list pystr) : nat :=
  length (filter (fun line => pystr_eqb (metric_name line) name) ms).

(** An entity of kind [kind]: an object of the snapshot with that key. *)
Definition is_kind (kind : pystr) (o : json) : bool :=
  match o with
  | JObj d => dict_has kind d
  | _ => false
  end.

Definition count_kind (kind : pystr) (l : list json) : nat :=
  length (filter (is_kind kind) l).

Definition has_fields (names : list pystr) (e : json) : bool :=
  match e with
  | JObj d => forallb (fun n => dict_has n d) names
  | _ => false
  end.

(** [kind_ok kind names d]: if the object [d] has the key [kind], its value
    is an object that has the fields [names]. *)
Definition kind_ok (kind : pystr) (names : list pystr) (d : list (pystr * json)) : bool :=
  match dict_get kind d with
  | Some e => has_fields names e
  | None => true
  end.

(** An entity as the engine lists it: an object, and what it holds under
    [table], [chain] or [counter] has the fields of the data model. *)
Definition entity_ok (o : json) : bool :=
  match o with
  | JObj d =>
      kind_ok (lit "table") [lit "family"; lit "name"] d &&
      kind_ok (lit "chain") [lit "family"; lit "table"; lit "name"] d &&
      kind_ok (lit "counter")
        [lit "family"; lit "table"; lit "name"; lit "packets"; lit "bytes"] d
  | _ => false
  end.

(** An object that is no table, no chain and no counter. *)
Definition other_kind (o : json) : bool :=
  negb (is_kind (lit "table") o || is_kind (lit "chain") o || is_kind (lit "counter") o)
  && entity_ok o.

(** ** The passes of [generate_metrics] as functions of the snapshot *)

Definition with_metrics (w : world) (m : list pystr) : world :=
  mkWorld (mkContext (ruleset (ctx w)) (Some m)) (trace w).

Definition table_lines (i : json) : result (list pystr) :=
  (x <-? table_line i ;; Ok [x])%result.

Definition chain_lines (i : json) : result (list pystr) :=
  (x <-? chain_line i ;; Ok [x])%result.

Definition counter_lines (i : json) : result (list pystr) :=
  (p <-? counter_line (lit "nft_counter_packets") (lit "packets") i ;;
   b <-? counter_line (lit "nft_counter_bytes") (lit "bytes") i ;;
   Ok [p; b])%result.

(** The objects one pass selects from the snapshot [v]. *)
Definition selected (kind : pystr) (v : json) : result (list json) :=
  (os <-? py_iter v ;; filter_in kind os)%result.

(** The lines one pass appends. *)
Definition pass (kind : pystr) (g : json -> result (list pystr)) (v : json)
  : result (list pystr) :=
  (sel <-? selected kind v ;; lss <-? mapM g sel ;; Ok (concat lss))%result.

Definition flatten (v : json) : result (list pystr) :=
  (T <-? pass (lit "table") table_lines v ;;
   C <-? pass (lit "chain") chain_lines v ;;
   K <-? pass (lit "counter") counter_lines v ;;
   Ok (T ++ C ++ K))%result.

(** The events of [load_nft_ruleset]. *)
Definition load_events (r : nft_reply) : list event :=
  [LogDebug (lit "loading nft ruleset"); NftCmd (lit "list ruleset")] ++
  (if (rc r =? 0)%Z then [] else [LogError (error r)]) ++
  [LogDebug (output r)].

(** The snapshot [load_nft_ruleset] stores. *)
Definition loaded (r : nft_reply) : result json :=
  (doc <-? loads r ;; subscript doc (lit "nftables"))%result.

(** What [k in o] selects. *)
Definition py_in_true (k : pystr) (o : json) : bool :=
  match py_in k o with
  | Ok true => true
  | _ => false
  end.

(** ** The spec's reading, for comparison *)

(** Following the spec's words (4.2: extraction in the entity's order of
    appearance in the snapshot): all records of the first entity, then all
    records of the second, and so on. *)
Definition entity_records (o : json) : result (list pystr) :=
  (T <-? (if py_in_true (lit "table") o then table_lines o else Ok []) ;;
   C <-? (if py_in_true (lit "chain") o then chain_lines o else Ok []) ;;
   K <-? (if py_in_true (lit "counter") o then counter_lines o else Ok []) ;;
   Ok (T ++ C ++ K))%result.

Definition flatten_in_snapshot_order (v : json) : result (list pystr) :=
  (os <-? py_iter v ;; lss <-? mapM entity_records os ;; Ok (concat lss))%result.

(** A metric record of the spec's data model: name, ordered label set and
    value, the last two already as text. *)
Record MetricRecord : Type := mkRecord {
  record_name : pystr;
  record_labels : list (pystr * pystr);
  record_value : pystr
}.

(** The records the three passes extract from an object. *)
Definition table_record (i : json) : result MetricRecord :=
  (family <-? field i (lit "table") (lit "family") ;;
   name <-? field i (lit "table") (lit "name") ;;
   Ok (mkRecord (lit "nft_table")
         [(lit "family", py_str family); (lit "name", py_str name)] (lit "1")))%result.

Definition chain_record (i : json) : result MetricRecord :=
  (family <-? field i (lit "chain") (lit "family") ;;
   table <-? field i (lit "chain") (lit "table") ;;
   name <-? field i (lit "chain") (lit "name") ;;
   Ok (mkRecord (lit "nft_chain")
         [(lit "family", py_str family); (lit "table", py_str table);
          (lit "name", py_str name)] (lit "1")))%result.

Definition counter_record (metric value : pystr) (i : json) : result MetricRecord :=
  (family <-? field i (lit "counter") (lit "family") ;;
   table <-? field i (lit "counter") (lit "table") ;;
   name <-? field i (lit "counter") (lit "name") ;;
   v <-? field i (lit "counter") value ;;
   Ok (mkRecord metric
         [(lit "family", py_str family); (lit "table", py_str table);
          (lit "name", py_str name)] (py_str v)))%result.

(** The exposition format's escaping of a label value (spec 4.3): backslash
    before a double quote and before a backslash, a newline as backslash-n. *)
Definition escape_label_value (s : pystr) : pystr :=
  flat_map (fun c =>
    if (c =? dquote)%N then [backslash; dquote]
    else if (c =? backslash)%N then [backslash; backslash]
    else if (c =? newline)%N then [backslash; 110%N]
    else [c]) s.

(** A label value that escaping leaves as it is. *)
Definition plain_value (s : pystr) : bool :=
  forallb (fun c => negb ((c =? dquote) || (c =? backslash) || (c =? newline))%N) s.

(** One line of the exposition format, the label values passed through
    [esc]: [name{k1="v1", k2="v2"} value]. *)
Definition encode_record (esc : pystr -> pystr) (rec : MetricRecord) : pystr :=
  record_name rec ++ lit "{" ++
  join (lit ", ") (map (fun '(k, v) => k ++ lit "=" ++ q (esc v)) (record_labels rec)) ++
  lit "} " ++ record_value rec.

Definition rmap {A B} (f : A -> B) (r : result A) : result B :=
  match r with
  | Ok a => Ok (f a)
  | Raise e => Raise e
  end.

(** ** What the handler does, as a function of the request and the reply *)

Definition is_nft_cmd (e : event) : bool :=
  match e with
  | NftCmd _ => true
  | _ => false
  end.

(** How often the engine was asked. *)
Definition count_nft_cmd (t : list event) : nat := length (filter is_nft_cmd t).

(** What [do_GET] returns and sends on [/metrics], after the events of
    [load_nft_ruleset]. *)
Definition metrics_response (r : nft_reply) : result unit * list event :=
  match (v <-? loaded r ;; flatten v)%result with
  | Raise _ => (Raise TypeError, [SendResponse 500; EndHeaders])
  | Ok ms =>
      match encode_utf8 (join [newline] ms) with
      | Ok body =>
          (Ok tt,
           [SendResponse 200; SendHeader (lit "Content-Type") CONTENT_TYPE_LATEST;
            EndHeaders; WfileWrite body])
      | Raise _ =>
          (Raise TypeError,
           [SendResponse 200; SendHeader (lit "Content-Type") CONTENT_TYPE_LATEST;
            EndHeaders; SendResponse 500; EndHeaders])
      end
  end.

(** The events of one call of [do_GET]. *)
Definition handler_events (req : request) (r : nft_reply) : list event :=
  match url req with
  | Raise _ => []
  | Ok u =>
      if pystr_eqb (path u) (lit "/metrics") then
        load_events r ++ snd (metrics_response r)
      else if pystr_eqb (path u) (lit "/") then
        [SendResponse 200; EndHeaders; WfileWrite landing_page]
      else [SendResponse 404; EndHeaders]
  end.

(** A JSON object, of whatever content. *)
Definition is_object (o : json) : bool :=
  match o with
  | JObj _ => true
  | _ => false
  end.

(** A value that Python can neither iterate nor subscript. *)
Definition is_scalar (v : json) : bool :=
  match v with
  | JNull | JBool _ | JInt _ | JFloat _ => true
  | _ => false
  end.

(** A text without a double quote. *)
Definition no_quote (s : pystr) : bool := forallb (fun c => negb (c =? dquote)%N) s.

(** What stands between two label values in a line of [nft_table]. *)
Definition name_separator : pystr := dquote :: lit ", name=" ++ [dquote].

(** The text before the first space. *)
Fixpoint until_space (l : pystr) : pystr :=
  match l with
  | [] => []
  | c :: l' => if (c =? 32)%N then [] else c :: until_space l'
  end.

(** The last field of a line: the text after its last space. *)
Definition last_field (line : pystr) : pystr := rev (until_space (rev line)).

(** A decimal integer read back from its text. *)
Definition int_of_text (s : pystr) : option Z :=
  option_map Z.of_int
    (NilZero.int_of_string (String.string_of_list_ascii (map ascii_of_N s))).

(** ** Lemmas on the loops *)

Arguments lit : simpl never.

Lemma with_metrics_metrics (w : world) (m : list pystr) :
  metrics (ctx (with_metrics w m)) = Some m.
Proof. reflexivity. Qed.

Lemma with_metrics_twice (w : world) (m m' : list pystr) :
  with_metrics (with_metrics w m) m' = with_metrics w m'.
Proof. reflexivity. Qed.

Lemma metrics_append_some (line : pystr) (w : world) (m : list pystr) :
  metrics (ctx w) = Some m ->
  metrics_append line w = (Ok tt, with_metrics w (m ++ [line])).
Proof.
  intros Hm. unfold metrics_append. rewrite Hm. reflexivity.
Qed.

(** A loop whose body appends the lines [g i] appends the lines of every
    element, in the order of the list. *)
Lemma for_each_appends (g : json -> result (list pystr)) (body : json -> M unit) :
  (forall i w m ls, metrics (ctx w) = Some m -> g i = Ok ls ->
     body i w = (Ok tt, with_metrics w (m ++ ls))) ->
  forall l w m lss,
    metrics (ctx w) = Some m -> mapM g l = Ok lss ->
    for_each l body w = (Ok tt, with_metrics w (m ++ concat lss)).
Proof.
  intros Hbody l. induction l as [|i l IH]; intros w m lss Hm Hmap.
  - simpl in Hmap. injection Hmap as <-. simpl. rewrite app_nil_r.
    unfold ret, with_metrics. destruct w as [[rs ms] t]. simpl in *. now subst.
  - simpl in Hmap. destruct (g i) as [ls|e] eqn:Hg; [|discriminate].
    simpl in Hmap. destruct (mapM g l) as [lss'|e] eqn:Hl; [|discriminate].
    simpl in Hmap. injection Hmap as <-.
    simpl. unfold bind. rewrite (Hbody i w m ls Hm Hg).
    rewrite (IH (with_metrics w (m ++ ls)) (m ++ ls) lss' eq_refl eq_refl).
    rewrite with_metrics_twice. simpl. now rewrite app_assoc.
Qed.

(** The same loop raises what the first failing element raises, and only
    [ctx.metrics] has changed by then. *)
Lemma for_each_raises (g : json -> result (list pystr)) (body : json -> M unit) :
  (forall i w m ls, metrics (ctx w) = Some m -> g i = Ok ls ->
     body i w = (Ok tt, with_metrics w (m ++ ls))) ->
  (forall i w m e, metrics (ctx w) = Some m -> g i = Raise e ->
     exists m', body i w = (Raise e, with_metrics w m')) ->
  forall l w m e,
    metrics (ctx w) = Some m -> mapM g l = Raise e ->
    exists m', for_each l body w = (Raise e, with_metrics w m').
Proof.
  intros Hok Hbad l. induction l as [|i l IH]; intros w m e Hm Hmap.
  - discriminate.
  - simpl in Hmap. simpl. unfold bind.
    destruct (g i) as [ls|e'] eqn:Hg; simpl in Hmap.
    + rewrite (Hok i w m ls Hm Hg).
      destruct (mapM g l) as [lss'|e'] eqn:Hl; simpl in Hmap; [discriminate|].
      injection Hmap as ->.
      destruct (IH (with_metrics w (m ++ ls)) (m ++ ls) e eq_refl eq_refl) as [m' Hm'].
      exists m'. now rewrite Hm'.
    + injection Hmap as ->.
      destruct (Hbad i w m e Hm Hg) as [m' Hm']. exists m'. now rewrite Hm'.
Qed.


Lemma bind_ok {A B} (m : M A) (f : A -> M B) (w w' : world) (a : A) :
  m w = (Ok a, w') -> bind m f w = f a w'.
Proof. intros H. unfold bind. now rewrite H. Qed.

Lemma bind_raise {A B} (m : M A) (f : A -> M B) (w w' : world) (e : pyexn) :
  m w = (Raise e, w') -> bind m f w = (Raise e, w').
Proof. intros H. unfold bind. now rewrite H. Qed.

Lemma with_metrics_same (w : world) (m : list pystr) :
  metrics (ctx w) = Some m -> with_metrics w m = w.
Proof.
  destruct w as [[rs ms] t]. simpl. intros ->. reflexivity.
Qed.

(** One pass of [generate_metrics]: select, then loop. *)
Lemma pass_runs (kind : pystr) (g : json -> result (list pystr)) (body : json -> M unit) :
  (forall i w m ls, metrics (ctx w) = Some m -> g i = Ok ls ->
     body i w = (Ok tt, with_metrics w (m ++ ls))) ->
  (forall i w m e, metrics (ctx w) = Some m -> g i = Raise e ->
     exists m', body i w = (Raise e, with_metrics w m')) ->
  forall w m, metrics (ctx w) = Some m ->
    match pass kind g (ruleset (ctx w)) with
    | Ok ls =>
        (objs <- _find_objs kind ;; for_each objs body)%py w
        = (Ok tt, with_metrics w (m ++ ls))
    | Raise e =>
        exists m', (objs <- _find_objs kind ;; for_each objs body)%py w
                   = (Raise e, with_metrics w m')
    end.
Proof.
  intros Hok Hbad w m Hm.
  unfold pass, selected, bind, _find_objs, get_ruleset, lift. simpl.
  destruct (py_iter (ruleset (ctx w))) as [os|e]; simpl.
  2:{ exists m. now rewrite with_metrics_same. }
  destruct (filter_in kind os) as [sel|e]; simpl.
  2:{ exists m. now rewrite with_metrics_same. }
  destruct (mapM g sel) as [lss|e] eqn:Hmap; simpl.
  - now apply for_each_appends with (g := g).
  - now apply for_each_raises with (g := g) (m := m).
Qed.

Lemma lookup_append_some (w : world) (m : list pystr) :
  metrics (ctx w) = Some m -> lookup_append w = (Ok tt, w).
Proof. intros Hm. unfold lookup_append. now rewrite Hm. Qed.

Lemma table_body_ok (i : json) (w : world) (m ls : list pystr) :
  metrics (ctx w) = Some m -> table_lines i = Ok ls ->
  (lookup_append ;; line <- lift (table_line i) ;; metrics_append line)%py w
  = (Ok tt, with_metrics w (m ++ ls)).
Proof.
  intros Hm H. rewrite (bind_ok _ _ _ _ _ (lookup_append_some w m Hm)).
  unfold table_lines in H. unfold bind, lift.
  destruct (table_line i) as [x|e]; simpl in H; [|discriminate].
  injection H as <-. now apply metrics_append_some.
Qed.

Lemma table_body_raise (i : json) (w : world) (m : list pystr) (e : pyexn) :
  metrics (ctx w) = Some m -> table_lines i = Raise e ->
  exists m', (lookup_append ;; line <- lift (table_line i) ;; metrics_append line)%py w
             = (Raise e, with_metrics w m').
Proof.
  intros Hm H. rewrite (bind_ok _ _ _ _ _ (lookup_append_some w m Hm)).
  unfold table_lines in H. unfold bind, lift.
  destruct (table_line i) as [x|e']; simpl in H; [discriminate|].
  injection H as ->. exists m. now rewrite with_metrics_same.
Qed.

Lemma chain_body_ok (i : json) (w : world) (m ls : list pystr) :
  metrics (ctx w) = Some m -> chain_lines i = Ok ls ->
  (lookup_append ;; line <- lift (chain_line i) ;; metrics_append line)%py w
  = (Ok tt, with_metrics w (m ++ ls)).
Proof.
  intros Hm H. rewrite (bind_ok _ _ _ _ _ (lookup_append_some w m Hm)).
  unfold chain_lines in H. unfold bind, lift.
  destruct (chain_line i) as [x|e]; simpl in H; [|discriminate].
  injection H as <-. now apply metrics_append_some.
Qed.

Lemma chain_body_raise (i : json) (w : world) (m : list pystr) (e : pyexn) :
  metrics (ctx w) = Some m -> chain_lines i = Raise e ->
  exists m', (lookup_append ;; line <- lift (chain_line i) ;; metrics_append line)%py w
             = (Raise e, with_metrics w m').
Proof.
  intros Hm H. rewrite (bind_ok _ _ _ _ _ (lookup_append_some w m Hm)).
  unfold chain_lines in H. unfold bind, lift.
  destruct (chain_line i) as [x|e']; simpl in H; [discriminate|].
  injection H as ->. exists m. now rewrite with_metrics_same.
Qed.

Lemma counter_body_ok (i : json) (w : world) (m ls : list pystr) :
  metrics (ctx w) = Some m -> counter_lines i = Ok ls ->
  (lookup_append ;;
   packets <- lift (counter_line (lit "nft_counter_packets") (lit "packets") i) ;;
   metrics_append packets ;;
   lookup_append ;;
   bytes <- lift (counter_line (lit "nft_counter_bytes") (lit "bytes") i) ;;
   metrics_append bytes)%py w
  = (Ok tt, with_metrics w (m ++ ls)).
Proof.
  intros Hm H. rewrite (bind_ok _ _ _ _ _ (lookup_append_some w m Hm)).
  unfold counter_lines in H. unfold bind at 1. unfold lift at 1.
  destruct (counter_line (lit "nft_counter_packets") (lit "packets") i) as [p|e];
    simpl in H; [|discriminate].
  rewrite (bind_ok _ _ _ _ _ (metrics_append_some p w m Hm)).
  rewrite (bind_ok _ _ _ _ _
             (lookup_append_some (with_metrics w (m ++ [p])) (m ++ [p]) eq_refl)).
  unfold bind, lift.
  destruct (counter_line (lit "nft_counter_bytes") (lit "bytes") i) as [b|e];
    simpl in H; [|discriminate].
  injection H as <-.
  rewrite (metrics_append_some b (with_metrics w (m ++ [p])) (m ++ [p]) eq_refl).
  rewrite with_metrics_twice, <- app_assoc. reflexivity.
Qed.

Lemma counter_body_raise (i : json) (w : world) (m : list pystr) (e : pyexn) :
  metrics (ctx w) = Some m -> counter_lines i = Raise e ->
  exists m',
    (lookup_append ;;
     packets <- lift (counter_line (lit "nft_counter_packets") (lit "packets") i) ;;
     metrics_append packets ;;
     lookup_append ;;
     bytes <- lift (counter_line (lit "nft_counter_bytes") (lit "bytes") i) ;;
     metrics_append bytes)%py w
    = (Raise e, with_metrics w m').
Proof.
  intros Hm H. rewrite (bind_ok _ _ _ _ _ (lookup_append_some w m Hm)).
  unfold counter_lines in H. unfold bind at 1. unfold lift at 1.
  destruct (counter_line (lit "nft_counter_packets") (lit "packets") i) as [p|e'];
    simpl in H.
  - rewrite (bind_ok _ _ _ _ _ (metrics_append_some p w m Hm)).
    rewrite (bind_ok _ _ _ _ _
               (lookup_append_some (with_metrics w (m ++ [p])) (m ++ [p]) eq_refl)).
    unfold bind, lift.
    destruct (counter_line (lit "nft_counter_bytes") (lit "bytes") i) as [b|e'];
      simpl in H; [discriminate|].
    injection H as ->. exists (m ++ [p]). reflexivity.
  - injection H as ->. exists m. now rewrite with_metrics_same.
Qed.

(** The three passes in a row, from a world whose [ctx.metrics] is a list. *)
Lemma passes_run (w : world) (m : list pystr) :
  metrics (ctx w) = Some m ->
  match flatten (ruleset (ctx w)) with
  | Ok ms =>
      (generate_table_metrics ;; generate_chain_metrics ;; generate_counter_metrics)%py w
      = (Ok tt, with_metrics w (m ++ ms))
  | Raise e =>
      exists m',
        (generate_table_metrics ;; generate_chain_metrics ;; generate_counter_metrics)%py w
        = (Raise e, with_metrics w m')
  end.
Proof.
  intros Hm. unfold flatten.
  pose proof (pass_runs (lit "table") table_lines
                (fun i =>
                   (lookup_append ;; line <- lift (table_line i) ;; metrics_append line)%py)
                table_body_ok table_body_raise w m Hm) as HT.
  fold generate_table_metrics in HT.
  destruct (pass (lit "table") table_lines (ruleset (ctx w))) as [T|e]; simpl.
  2:{ destruct HT as [m' HT]. exists m'. now rewrite (bind_raise _ _ _ _ _ HT). }
  rewrite (bind_ok _ _ _ _ _ HT).
  pose proof (pass_runs (lit "chain") chain_lines
                (fun i =>
                   (lookup_append ;; line <- lift (chain_line i) ;; metrics_append line)%py)
                chain_body_ok chain_body_raise
                (with_metrics w (m ++ T)) (m ++ T) eq_refl) as HC.
  fold generate_chain_metrics in HC. simpl ruleset in HC.
  destruct (pass (lit "chain") chain_lines (ruleset (ctx w))) as [C|e]; simpl.
  2:{ destruct HC as [m' HC]. exists m'. now rewrite (bind_raise _ _ _ _ _ HC). }
  rewrite (bind_ok _ _ _ _ _ HC).
  pose proof (pass_runs (lit "counter") counter_lines
                (fun i =>
                   (lookup_append ;;
                    packets <- lift (counter_line (lit "nft_counter_packets") (lit "packets") i) ;;
                    metrics_append packets ;;
                    lookup_append ;;
                    bytes <- lift (counter_line (lit "nft_counter_bytes") (lit "bytes") i) ;;
                    metrics_append bytes)%py)
                counter_body_ok counter_body_raise
                (with_metrics (with_metrics w (m ++ T)) ((m ++ T) ++ C))
                ((m ++ T) ++ C) eq_refl) as HK.
  fold generate_counter_metrics in HK. simpl ruleset in HK.
  destruct (pass (lit "counter") counter_lines (ruleset (ctx w))) as [K|e]; simpl.
  2:{ destruct HK as [m' HK]. exists m'. now rewrite HK. }
  rewrite HK. rewrite !with_metrics_twice, <- !app_assoc. reflexivity.
Qed.

(** [load_nft_ruleset] logs, asks the engine, and stores the snapshot or
    raises; [ctx.metrics] is left alone. *)
Lemma load_runs (r : nft_reply) (w : world) :
  load_nft_ruleset r w =
  match loaded r with
  | Ok v => (Ok tt, mkWorld (mkContext v (metrics (ctx w))) (trace w ++ load_events r))
  | Raise e => (Raise e, mkWorld (ctx w) (trace w ++ load_events r))
  end.
Proof.
  unfold load_nft_ruleset, loaded, load_events, bind, emit, lift, set_ruleset, ret.
  simpl.
  destruct (rc r =? 0)%Z; simpl; rewrite <- !app_assoc; simpl;
    (destruct (loads r) as [doc|e]; simpl; [|reflexivity]);
    (destruct (subscript doc (lit "nftables")) as [v|e]; reflexivity).
Qed.

(** The whole of [generate_metrics] as a function of the engine's reply. *)
Lemma generate_metrics_runs (r : nft_reply) (w : world) :
  match loaded r with
  | Raise e =>
      generate_metrics r w
      = (Raise e, mkWorld (mkContext (ruleset (ctx w)) (Some [])) (trace w ++ load_events r))
  | Ok v =>
      match flatten v with
      | Ok ms =>
          generate_metrics r w
          = (Ok tt, mkWorld (mkContext v (Some ms)) (trace w ++ load_events r))
      | Raise e =>
          exists m',
            generate_metrics r w
            = (Raise e, mkWorld (mkContext v (Some m')) (trace w ++ load_events r))
      end
  end.
Proof.
  assert (Hstep : generate_metrics r w =
    match load_nft_ruleset r (mkWorld (mkContext (ruleset (ctx w)) (Some [])) (trace w)) with
    | (Ok _, w') =>
        (generate_table_metrics ;; generate_chain_metrics ;; generate_counter_metrics)%py w'
    | (Raise e, w') => (Raise e, w')
    end) by reflexivity.
  rewrite load_runs in Hstep. simpl in Hstep.
  destruct (loaded r) as [v|e]; [|exact Hstep].
  pose proof (passes_run
    (mkWorld (mkContext v (Some [])) (trace w ++ load_events r)) [] eq_refl) as H.
  simpl in H.
  destruct (flatten v) as [ms|e].
  - now rewrite Hstep.
  - destruct H as [m' H]. exists m'. now rewrite Hstep.
Qed.

(** ** Lemmas on strings, selection and names *)

Lemma pystr_eqb_refl (a : pystr) : pystr_eqb a a = true.
Proof.
  induction a as [|x a IH]; simpl; [reflexivity|].
  now rewrite N.eqb_refl, IH.
Qed.

Lemma pystr_eqb_eq (a b : pystr) : pystr_eqb a b = true <-> a = b.
Proof.
  split.
  - revert b. induction a as [|x a IH]; destruct b as [|y b]; simpl; try discriminate.
    + reflexivity.
    + intros H. apply andb_prop in H as [Hx Hab].
      apply N.eqb_eq in Hx. subst. f_equal. now apply IH.
  - intros ->. apply pystr_eqb_refl.
Qed.

(** The name of a line is what stands before its first brace. *)
Lemma metric_name_brace (name rest : pystr) :
  forallb (fun c => negb (c =? 123)%N) name = true ->
  metric_name (name ++ 123%N :: rest) = name.
Proof.
  induction name as [|c name IH]; simpl.
  - reflexivity.
  - intros H. apply andb_prop in H as [Hc Hn].
    destruct (c =? 123)%N; [discriminate|]. now rewrite IH.
Qed.

Lemma mapM_length {A B} (f : A -> result B) (l : list A) (bs : list B) :
  mapM f l = Ok bs -> length bs = length l.
Proof.
  revert bs. induction l as [|a l IH]; simpl; intros bs H.
  - now injection H as <-.
  - destruct (f a); simpl in H; [|discriminate].
    destruct (mapM f l) as [bs'|]; simpl in H; [|discriminate].
    injection H as <-. simpl. now rewrite (IH bs').
Qed.

Lemma mapM_app {A B} (f : A -> result B) (l1 l2 : list A) (bs : list B) :
  mapM f (l1 ++ l2) = Ok bs ->
  exists b1 b2, mapM f l1 = Ok b1 /\ mapM f l2 = Ok b2 /\ bs = b1 ++ b2.
Proof.
  revert bs. induction l1 as [|a l1 IH]; simpl; intros bs H.
  - exists [], bs. auto.
  - destruct (f a) as [b|]; simpl in *; [|discriminate].
    destruct (mapM f (l1 ++ l2)) as [bs'|]; simpl in H; [|discriminate].
    injection H as <-.
    destruct (IH bs' eq_refl) as (b1 & b2 & -> & -> & ->).
    exists (b :: b1), b2. auto.
Qed.

Lemma mapM_all_ok {A B} (f : A -> result B) (l : list A) :
  (forall a, In a l -> exists b, f a = Ok b) ->
  exists bs, mapM f l = Ok bs.
Proof.
  induction l as [|a l IH]; simpl; intros H.
  - now exists [].
  - destruct (H a (or_introl eq_refl)) as [b ->].
    destruct IH as [bs ->]; [intros; apply H; now right|].
    now exists (b :: bs).
Qed.

Lemma filter_in_filter (k : pystr) (l sel : list json) :
  filter_in k l = Ok sel -> sel = filter (py_in_true k) l.
Proof.
  revert sel. induction l as [|o l IH]; simpl; intros sel H.
  - now injection H as <-.
  - unfold py_in_true. destruct (py_in k o) as [b|]; simpl in H; [|discriminate].
    destruct (filter_in k l) as [os|]; simpl in H; [|discriminate].
    injection H as <-. rewrite (IH os eq_refl). now destruct b.
Qed.

Lemma entity_ok_obj (o : json) :
  entity_ok o = true -> exists d, o = JObj d.
Proof.
  destruct o; simpl; try discriminate. intros _. now eexists.
Qed.

Lemma filter_in_entities (k : pystr) (l : list json) :
  forallb entity_ok l = true ->
  filter_in k l = Ok (filter (is_kind k) l).
Proof.
  induction l as [|o l IH]; simpl; intros H; [reflexivity|].
  apply andb_prop in H as [Ho Hl].
  destruct (entity_ok_obj o Ho) as [d ->]. simpl.
  rewrite (IH Hl). reflexivity.
Qed.

Lemma field_ok (d : list (pystr * json)) (kind n : pystr) (names : list pystr) :
  kind_ok kind names d = true -> dict_has kind d = true -> In n names ->
  exists v, field (JObj d) kind n = Ok v.
Proof.
  unfold kind_ok, dict_has, field. simpl.
  destruct (dict_get kind d) as [e|]; [|discriminate].
  intros Hf _ Hin. simpl.
  destruct e; simpl in Hf; try discriminate.
  rewrite forallb_forall in Hf. specialize (Hf n Hin).
  unfold dict_has in Hf. simpl.
  destruct (dict_get n d0) as [v|]; [|discriminate]. now exists v.
Qed.

Lemma table_line_ok (o : json) :
  entity_ok o = true -> is_kind (lit "table") o = true ->
  exists x, table_line o = Ok x.
Proof.
  intros Ho Hk. destruct (entity_ok_obj o Ho) as [d ->]. simpl in Ho, Hk.
  apply andb_prop in Ho as [Ho _]. apply andb_prop in Ho as [Ho _].
  unfold table_line.
  destruct (field_ok d _ (lit "family") _ Ho Hk) as [f ->]; [simpl; auto|].
  destruct (field_ok d _ (lit "name") _ Ho Hk) as [n ->]; [simpl; auto|].
  simpl. now eexists.
Qed.

Lemma chain_line_ok (o : json) :
  entity_ok o = true -> is_kind (lit "chain") o = true ->
  exists x, chain_line o = Ok x.
Proof.
  intros Ho Hk. destruct (entity_ok_obj o Ho) as [d ->]. simpl in Ho, Hk.
  apply andb_prop in Ho as [Ho _]. apply andb_prop in Ho as [_ Ho].
  unfold chain_line.
  destruct (field_ok d _ (lit "family") _ Ho Hk) as [f ->]; [simpl; auto|].
  destruct (field_ok d _ (lit "table") _ Ho Hk) as [t ->]; [simpl; auto|].
  destruct (field_ok d _ (lit "name") _ Ho Hk) as [n ->]; [simpl; auto|].
  simpl. now eexists.
Qed.

Lemma counter_line_ok (metric value : pystr) (o : json) :
  entity_ok o = true -> is_kind (lit "counter") o = true ->
  In value [lit "packets"; lit "bytes"] ->
  exists x, counter_line metric value o = Ok x.
Proof.
  intros Ho Hk Hv. destruct (entity_ok_obj o Ho) as [d ->]. simpl in Ho, Hk.
  apply andb_prop in Ho as [_ Ho].
  unfold counter_line.
  destruct (field_ok d _ (lit "family") _ Ho Hk) as [f ->]; [simpl; auto|].
  destruct (field_ok d _ (lit "table") _ Ho Hk) as [t ->]; [simpl; auto|].
  destruct (field_ok d _ (lit "name") _ Ho Hk) as [n ->]; [simpl; auto|].
  destruct (field_ok d _ value _ Ho Hk) as [v ->].
  { simpl. destruct Hv as [<-|[<-|[]]]; auto 6. }
  simpl. now eexists.
Qed.

Lemma table_line_name (i : json) (x : pystr) :
  table_line i = Ok x -> metric_name x = lit "nft_table".
Proof.
  unfold table_line. intros H.
  destruct (field i (lit "table") (lit "family")); simpl in H; [|discriminate].
  destruct (field i (lit "table") (lit "name")); simpl in H; [|discriminate].
  injection H as <-.
  reflexivity.
Qed.

Lemma chain_line_name (i : json) (x : pystr) :
  chain_line i = Ok x -> metric_name x = lit "nft_chain".
Proof.
  unfold chain_line. intros H.
  destruct (field i (lit "chain") (lit "family")); simpl in H; [|discriminate].
  destruct (field i (lit "chain") (lit "table")); simpl in H; [|discriminate].
  destruct (field i (lit "chain") (lit "name")); simpl in H; [|discriminate].
  injection H as <-.
  reflexivity.
Qed.

Lemma counter_line_name (metric value : pystr) (i : json) (x : pystr) :
  forallb (fun c => negb (c =? 123)%N) metric = true ->
  counter_line metric value i = Ok x -> metric_name x = metric.
Proof.
  unfold counter_line. intros Hm H.
  destruct (field i (lit "counter") (lit "family")); simpl in H; [|discriminate].
  destruct (field i (lit "counter") (lit "table")); simpl in H; [|discriminate].
  destruct (field i (lit "counter") (lit "name")); simpl in H; [|discriminate].
  destruct (field i (lit "counter") value); simpl in H; [|discriminate].
  injection H as <-.
  now apply metric_name_brace.
Qed.

(** Counting the lines of one name. *)
Lemma count_name_app (name : pystr) (a b : list pystr) :
  count_name name (a ++ b) = count_name name a + count_name name b.
Proof.
  unfold count_name. now rewrite filter_app, length_app.
Qed.

Lemma count_name_all (name : pystr) (ms : list pystr) :
  Forall (fun x => metric_name x = name) ms -> count_name name ms = length ms.
Proof.
  unfold count_name. induction 1 as [|x ms Hx _ IH]; simpl; [reflexivity|].
  rewrite Hx, pystr_eqb_refl. simpl. now rewrite IH.
Qed.

Lemma count_name_none (name : pystr) (ms : list pystr) :
  Forall (fun x => pystr_eqb (metric_name x) name = false) ms ->
  count_name name ms = 0.
Proof.
  unfold count_name. induction 1 as [|x ms Hx _ IH]; simpl; [reflexivity|].
  now rewrite Hx.
Qed.

(** The lines of a pass that appends one line per object. *)
Lemma single_lines (f : json -> result pystr) (sel : list json) (lss : list (list pystr)) :
  mapM (fun i => (x <-? f i ;; Ok [x])%result) sel = Ok lss ->
  mapM f sel = Ok (concat lss).
Proof.
  revert lss. induction sel as [|i sel IH]; simpl; intros lss H.
  - now injection H as <-.
  - destruct (f i) as [x|]; simpl in H; [|discriminate].
    destruct (mapM (fun i => (x <-? f i ;; Ok [x])%result) sel) as [lss'|];
      simpl in H; [|discriminate].
    injection H as <-. now rewrite (IH lss' eq_refl).
Qed.

Lemma mapM_Forall {A B} (f : A -> result B) (P : B -> Prop) (l : list A) (bs : list B) :
  (forall a b, f a = Ok b -> P b) -> mapM f l = Ok bs -> Forall P bs.
Proof.
  intros HP. revert bs. induction l as [|a l IH]; simpl; intros bs H.
  - injection H as <-. constructor.
  - destruct (f a) as [b|] eqn:Hb; simpl in H; [|discriminate].
    destruct (mapM f l) as [bs'|]; simpl in H; [|discriminate].
    injection H as <-. constructor; [now apply (HP a)|now apply IH].
Qed.

Lemma count_name_other (name name' : pystr) (ms : list pystr) :
  Forall (fun x => metric_name x = name') ms -> pystr_eqb name' name = false ->
  count_name name ms = 0.
Proof.
  intros H Hne. apply count_name_none.
  eapply Forall_impl; [|exact H]. simpl. now intros x ->.
Qed.

Lemma count_name_cons (name x : pystr) (ms : list pystr) :
  count_name name (x :: ms) =
  (if pystr_eqb (metric_name x) name then 1 else 0) + count_name name ms.
Proof.
  unfold count_name. simpl. now destruct (pystr_eqb (metric_name x) name).
Qed.

(** The counter pass appends, per counter, its packets line and then its bytes
    line. *)
Lemma counter_lines_pairs (sel : list json) (lss : list (list pystr)) :
  mapM counter_lines sel = Ok lss ->
  Forall (fun ls => exists p b, ls = [p; b] /\
            metric_name p = lit "nft_counter_packets" /\
            metric_name b = lit "nft_counter_bytes") lss.
Proof.
  apply mapM_Forall. intros i ls. unfold counter_lines.
  destruct (counter_line (lit "nft_counter_packets") (lit "packets") i) as [p|] eqn:Hp;
    simpl; [|discriminate].
  destruct (counter_line (lit "nft_counter_bytes") (lit "bytes") i) as [b|] eqn:Hb;
    simpl; [|discriminate].
  intros H. injection H as <-. exists p, b. repeat split.
  - now apply counter_line_name in Hp.
  - now apply counter_line_name in Hb.
Qed.

Lemma pairs_counts (lss : list (list pystr)) :
  Forall (fun ls => exists p b, ls = [p; b] /\
            metric_name p = lit "nft_counter_packets" /\
            metric_name b = lit "nft_counter_bytes") lss ->
  length (concat lss) = 2 * length lss /\
  count_name (lit "nft_table") (concat lss) = 0 /\
  count_name (lit "nft_chain") (concat lss) = 0 /\
  count_name (lit "nft_counter_packets") (concat lss) = length lss /\
  count_name (lit "nft_counter_bytes") (concat lss) = length lss.
Proof.
  induction 1 as [|ls lss (p & b & -> & Hp & Hb) _ (IH0 & IH1 & IH2 & IH3 & IH4)].
  - repeat split; reflexivity.
  - simpl concat. rewrite !count_name_cons, Hp, Hb, IH1, IH2, IH3, IH4.
    simpl length. rewrite IH0. repeat split; try reflexivity. lia.
Qed.

Lemma filter_entities (k : pystr) (l : list json) (o : json) :
  forallb entity_ok l = true -> In o (filter (is_kind k) l) ->
  entity_ok o = true /\ is_kind k o = true.
Proof.
  intros Hl Hin. apply filter_In in Hin as [Hin Hk].
  rewrite forallb_forall in Hl. auto.
Qed.

(** On a snapshot of well-formed entities every pass succeeds. *)
Lemma passes_ok (l : list json) :
  forallb entity_ok l = true ->
  exists T C KK,
    mapM table_line (filter (is_kind (lit "table")) l) = Ok T /\
    mapM chain_line (filter (is_kind (lit "chain")) l) = Ok C /\
    mapM counter_lines (filter (is_kind (lit "counter")) l) = Ok KK /\
    flatten (JArr l) = Ok (T ++ C ++ concat KK).
Proof.
  intros Hl.
  destruct (mapM_all_ok table_lines (filter (is_kind (lit "table")) l)) as [Ts HT].
  { intros o Ho. destruct (filter_entities _ _ _ Hl Ho) as [H1 H2].
    unfold table_lines. destruct (table_line_ok o H1 H2) as [x ->]. now eexists. }
  destruct (mapM_all_ok chain_lines (filter (is_kind (lit "chain")) l)) as [Cs HC].
  { intros o Ho. destruct (filter_entities _ _ _ Hl Ho) as [H1 H2].
    unfold chain_lines. destruct (chain_line_ok o H1 H2) as [x ->]. now eexists. }
  destruct (mapM_all_ok counter_lines (filter (is_kind (lit "counter")) l)) as [KK HK].
  { intros o Ho. destruct (filter_entities _ _ _ Hl Ho) as [H1 H2].
    unfold counter_lines.
    destruct (counter_line_ok (lit "nft_counter_packets") (lit "packets") o H1 H2)
      as [x ->]; [simpl; auto|].
    destruct (counter_line_ok (lit "nft_counter_bytes") (lit "bytes") o H1 H2)
      as [y ->]; [simpl; auto|].
    now eexists. }
  exists (concat Ts), (concat Cs), KK. repeat split.
  - now apply single_lines.
  - now apply single_lines.
  - exact HK.
  - unfold flatten, pass, selected. simpl.
    rewrite !(filter_in_entities _ l Hl). simpl.
    rewrite HT, HC, HK. reflexivity.
Qed.

(** C1.  For a snapshot of well-formed entities with N objects of kind
    [table], M of kind [chain] and K of kind [counter], [generate_metrics]
    returns, and [ctx.metrics] then holds exactly N lines named [nft_table],
    M named [nft_chain], K named [nft_counter_packets] and K named
    [nft_counter_bytes], N + M + 2K lines in all: objects of other kinds add
    nothing. *)
Theorem generate_metrics_record_counts (r : nft_reply) (w : world) (l : list json) :
  loaded r = Ok (JArr l) ->
  forallb entity_ok l = true ->
  exists ms,
    generate_metrics r w
    = (Ok tt, mkWorld (mkContext (JArr l) (Some ms)) (trace w ++ load_events r)) /\
    count_name (lit "nft_table") ms = count_kind (lit "table") l /\
    count_name (lit "nft_chain") ms = count_kind (lit "chain") l /\
    count_name (lit "nft_counter_packets") ms = count_kind (lit "counter") l /\
    count_name (lit "nft_counter_bytes") ms = count_kind (lit "counter") l /\
    length ms = count_kind (lit "table") l + count_kind (lit "chain") l
                + 2 * count_kind (lit "counter") l.
Proof.
  intros Hload Hl.
  destruct (passes_ok l Hl) as (T & C & KK & HT & HC & HK & Hflat).
  exists (T ++ C ++ concat KK).
  pose proof (generate_metrics_runs r w) as Hrun.
  rewrite Hload, Hflat in Hrun. split; [exact Hrun|].
  pose proof (mapM_length _ _ _ HT) as LT.
  pose proof (mapM_length _ _ _ HC) as LC.
  pose proof (mapM_length _ _ _ HK) as LK.
  pose proof (mapM_Forall _ _ _ _ table_line_name HT) as NT.
  pose proof (mapM_Forall _ _ _ _ chain_line_name HC) as NC.
  destruct (pairs_counts KK (counter_lines_pairs _ _ HK)) as (K0 & K1 & K2 & K3 & K4).
  unfold count_kind. rewrite !count_name_app, !length_app.
  rewrite (count_name_all _ _ NT), (count_name_all _ _ NC).
  rewrite (count_name_other (lit "nft_chain") _ _ NT eq_refl).
  rewrite (count_name_other (lit "nft_counter_packets") _ _ NT eq_refl).
  rewrite (count_name_other (lit "nft_counter_bytes") _ _ NT eq_refl).
  rewrite (count_name_other (lit "nft_table") _ _ NC eq_refl).
  rewrite (count_name_other (lit "nft_counter_packets") _ _ NC eq_refl).
  rewrite (count_name_other (lit "nft_counter_bytes") _ _ NC eq_refl).
  rewrite K0, K1, K2, K3, K4, LT, LC, LK. repeat split; lia.
Qed.

(** What a successful [flatten] is made of. *)
Lemma flatten_inv (v : json) (ms : list pystr) :
  flatten v = Ok ms ->
  exists os T C KK,
    py_iter v = Ok os /\
    mapM table_line (filter (py_in_true (lit "table")) os) = Ok T /\
    mapM chain_line (filter (py_in_true (lit "chain")) os) = Ok C /\
    mapM counter_lines (filter (py_in_true (lit "counter")) os) = Ok KK /\
    ms = T ++ C ++ concat KK.
Proof.
  unfold flatten, pass, selected. intros H.
  destruct (py_iter v) as [os|]; simpl in H; [|discriminate].
  destruct (filter_in (lit "table") os) as [st|] eqn:Hst; simpl in H; [|discriminate].
  destruct (mapM table_lines st) as [Ts|] eqn:HT; simpl in H; [|discriminate].
  destruct (filter_in (lit "chain") os) as [sc|] eqn:Hsc; simpl in H; [|discriminate].
  destruct (mapM chain_lines sc) as [Cs|] eqn:HC; simpl in H; [|discriminate].
  destruct (filter_in (lit "counter") os) as [sk|] eqn:Hsk; simpl in H; [|discriminate].
  destruct (mapM counter_lines sk) as [KK|] eqn:HK; simpl in H; [|discriminate].
  injection H as <-.
  apply filter_in_filter in Hst, Hsc, Hsk. subst st sc sk.
  exists os, (concat Ts), (concat Cs), KK. repeat split.
  - now apply single_lines.
  - now apply single_lines.
  - exact HK.
Qed.

(** A successful [generate_metrics] leaves the snapshot it loaded and the
    lines [flatten] computes from it. *)
Lemma generate_metrics_ok_inv (r : nft_reply) (w w' : world) :
  generate_metrics r w = (Ok tt, w') ->
  exists v ms,
    loaded r = Ok v /\ flatten v = Ok ms /\
    w' = mkWorld (mkContext v (Some ms)) (trace w ++ load_events r).
Proof.
  intros H. pose proof (generate_metrics_runs r w) as Hrun.
  destruct (loaded r) as [v|e].
  - destruct (flatten v) as [ms|e] eqn:Hflat.
    + exists v, ms. rewrite Hrun in H. repeat split; congruence.
    + destruct Hrun as [m' Hrun]. rewrite Hrun in H. discriminate.
  - rewrite Hrun in H. discriminate.
Qed.

(** C9.  Whenever [generate_metrics] returns, [ctx.metrics] is the lines of
    the objects selected as [table], in snapshot order, followed by the lines
    of those selected as [chain], in snapshot order, followed by, for each
    object selected as [counter] in snapshot order, its packets line and right
    after it its bytes line; this holds however the kinds are interleaved in
    the snapshot. *)
Theorem metrics_grouped_by_kind (r : nft_reply) (w w' : world) :
  generate_metrics r w = (Ok tt, w') ->
  exists os T C KK,
    loaded r = Ok (ruleset (ctx w')) /\
    py_iter (ruleset (ctx w')) = Ok os /\
    mapM table_line (filter (py_in_true (lit "table")) os) = Ok T /\
    mapM chain_line (filter (py_in_true (lit "chain")) os) = Ok C /\
    mapM counter_lines (filter (py_in_true (lit "counter")) os) = Ok KK /\
    metrics (ctx w') = Some (T ++ C ++ concat KK) /\
    Forall (fun x => metric_name x = lit "nft_table") T /\
    Forall (fun x => metric_name x = lit "nft_chain") C /\
    Forall (fun ls => exists p b, ls = [p; b] /\
              metric_name p = lit "nft_counter_packets" /\
              metric_name b = lit "nft_counter_bytes") KK.
Proof.
  intros H.
  destruct (generate_metrics_ok_inv r w w' H) as (v & ms & Hv & Hflat & ->).
  destruct (flatten_inv v ms Hflat) as (os & T & C & KK & Hos & HT & HC & HK & ->).
  exists os, T, C, KK. simpl. repeat split; try assumption.
  - exact (mapM_Forall _ _ _ _ table_line_name HT).
  - exact (mapM_Forall _ _ _ _ chain_line_name HC).
  - exact (counter_lines_pairs _ _ HK).
Qed.

Lemma is_kind_selected (k : pystr) (o : json) :
  is_kind k o = true -> py_in_true k o = true.
Proof.
  destruct o; simpl; try discriminate. unfold py_in_true. simpl. now intros ->.
Qed.

Lemma mapM_cons_inv {A B} (f : A -> result B) (a : A) (l : list A) (bs : list B) :
  mapM f (a :: l) = Ok bs ->
  exists b bs', f a = Ok b /\ mapM f l = Ok bs' /\ bs = b :: bs'.
Proof.
  simpl. destruct (f a) as [b|]; simpl; [|discriminate].
  destruct (mapM f l) as [bs'|]; simpl; [|discriminate].
  intros H. injection H as <-. now exists b, bs'.
Qed.

(** Within one pass, the lines of an object selected earlier in the snapshot
    stand before the lines of one selected later. *)
Lemma pass_keeps_order (kind : pystr) (g : json -> result (list pystr))
      (l1 l2 l3 : list json) (A B : json) (X : list pystr) :
  pass kind g (JArr (l1 ++ A :: l2 ++ B :: l3)) = Ok X ->
  py_in_true kind A = true -> py_in_true kind B = true ->
  exists a b pre mid post,
    g A = Ok a /\ g B = Ok b /\ X = pre ++ a ++ mid ++ b ++ post.
Proof.
  unfold pass, selected. simpl. intros H HA HB.
  destruct (filter_in kind (l1 ++ A :: l2 ++ B :: l3)) as [sel|] eqn:Hsel;
    simpl in H; [|discriminate].
  destruct (mapM g sel) as [lss|] eqn:Hmap; simpl in H; [|discriminate].
  injection H as <-.
  apply filter_in_filter in Hsel. subst sel.
  rewrite filter_app in Hmap. simpl in Hmap. rewrite HA in Hmap.
  rewrite filter_app in Hmap. simpl in Hmap. rewrite HB in Hmap.
  apply mapM_app in Hmap as (x1 & y1 & _ & Hy1 & ->).
  apply mapM_cons_inv in Hy1 as (a & y2 & Ha & Hy2 & ->).
  apply mapM_app in Hy2 as (x2 & y3 & _ & Hy3 & ->).
  apply mapM_cons_inv in Hy3 as (b & x3 & Hb & _ & ->).
  exists a, b, (concat x1), (concat x2), (concat x3).
  repeat split; [assumption..|].
  rewrite concat_app. simpl. rewrite concat_app. simpl. reflexivity.
Qed.

Lemma pairs_named (lss : list (list pystr)) :
  Forall (fun ls => exists p b, ls = [p; b] /\
            metric_name p = lit "nft_counter_packets" /\
            metric_name b = lit "nft_counter_bytes") lss ->
  Forall (fun x => metric_name x = lit "nft_counter_packets" \/
                   metric_name x = lit "nft_counter_bytes") (concat lss).
Proof.
  induction 1 as [|ls lss (p & b & -> & Hp & Hb) _ IH]; simpl.
  - constructor.
  - constructor; [now left|]. constructor; [now right|]. exact IH.
Qed.

(** The lines of one pass that returned, and their names when each object
    gives one line. *)
Lemma pass_single_named (kind name : pystr) (f : json -> result pystr)
      (v : json) (X : list pystr) :
  (forall i x, f i = Ok x -> metric_name x = name) ->
  pass kind (fun i => (x <-? f i ;; Ok [x])%result) v = Ok X ->
  Forall (fun x => metric_name x = name) X.
Proof.
  intros Hname H. unfold pass in H.
  destruct (selected kind v) as [sel|]; simpl in H; [|discriminate].
  destruct (mapM (fun i => (x <-? f i ;; Ok [x])%result) sel) as [lss|] eqn:Hm;
    simpl in H; [|discriminate].
  injection H as <-. apply single_lines in Hm.
  exact (mapM_Forall _ _ _ _ Hname Hm).
Qed.

(** C5, amended.  Whenever [generate_metrics] returns, [ctx.metrics] is three
    groups in a row: lines named [nft_table], then lines named [nft_chain],
    then lines named [nft_counter_packets] or [nft_counter_bytes].  Within a
    group the lines follow the snapshot: when an object [A] stands before an
    object [B] in the snapshot and both are tables (both chains, both
    counters), every line of [A] stands before every line of [B] in the group
    of that kind. *)
Theorem same_kind_records_keep_snapshot_order (r : nft_reply) (w w' : world) :
  generate_metrics r w = (Ok tt, w') ->
  exists T C K,
    metrics (ctx w') = Some (T ++ C ++ K) /\
    Forall (fun x => metric_name x = lit "nft_table") T /\
    Forall (fun x => metric_name x = lit "nft_chain") C /\
    Forall (fun x => metric_name x = lit "nft_counter_packets" \/
                     metric_name x = lit "nft_counter_bytes") K /\
    forall (l1 l2 l3 : list json) (A B : json),
      loaded r = Ok (JArr (l1 ++ A :: l2 ++ B :: l3)) ->
      (is_kind (lit "table") A = true -> is_kind (lit "table") B = true ->
       exists a b pre mid post,
         table_lines A = Ok a /\ table_lines B = Ok b /\
         T = pre ++ a ++ mid ++ b ++ post) /\
      (is_kind (lit "chain") A = true -> is_kind (lit "chain") B = true ->
       exists a b pre mid post,
         chain_lines A = Ok a /\ chain_lines B = Ok b /\
         C = pre ++ a ++ mid ++ b ++ post) /\
      (is_kind (lit "counter") A = true -> is_kind (lit "counter") B = true ->
       exists a b pre mid post,
         counter_lines A = Ok a /\ counter_lines B = Ok b /\
         K = pre ++ a ++ mid ++ b ++ post).
Proof.
  intros Hgen.
  destruct (generate_metrics_ok_inv r w w' Hgen) as (v & ms & Hv & Hflat & ->).
  unfold flatten in Hflat.
  destruct (pass (lit "table") table_lines v) as [T|] eqn:HT; simpl in Hflat; [|discriminate].
  destruct (pass (lit "chain") chain_lines v) as [C|] eqn:HC; simpl in Hflat; [|discriminate].
  destruct (pass (lit "counter") counter_lines v) as [K|] eqn:HK; simpl in Hflat; [|discriminate].
  injection Hflat as <-.
  exists T, C, K. split; [reflexivity|].
  split; [exact (pass_single_named _ _ table_line v T table_line_name HT)|].
  split; [exact (pass_single_named _ _ chain_line v C chain_line_name HC)|].
  split.
  { unfold pass in HK.
    destruct (selected (lit "counter") v) as [sel|]; simpl in HK; [|discriminate].
    destruct (mapM counter_lines sel) as [lss|] eqn:Hm; simpl in HK; [|discriminate].
    injection HK as <-. apply pairs_named. exact (counter_lines_pairs _ _ Hm). }
  intros l1 l2 l3 A B Hload. rewrite Hv in Hload. injection Hload as ->.
  split; [|split]; intros HA HB; apply is_kind_selected in HA, HB.
  - exact (pass_keeps_order _ _ _ _ _ _ _ _ HT HA HB).
  - exact (pass_keeps_order _ _ _ _ _ _ _ _ HC HA HB).
  - exact (pass_keeps_order _ _ _ _ _ _ _ _ HK HA HB).
Qed.

Lemma escape_plain (s : pystr) :
  plain_value s = true -> escape_label_value s = s.
Proof.
  induction s as [|c s IH]; simpl; [reflexivity|].
  intros H. apply andb_prop in H as [Hc Hs].
  apply negb_true_iff in Hc.
  apply orb_false_elim in Hc as [Hc Hn]. apply orb_false_elim in Hc as [Hq Hb].
  rewrite Hq, Hb, Hn. simpl. now rewrite IH.
Qed.

Lemma encode_labels_plain (labels : list (pystr * pystr)) :
  forallb (fun kv => plain_value (snd kv)) labels = true ->
  map (fun '(k, v) => k ++ lit "=" ++ q (escape_label_value v)) labels
  = map (fun '(k, v) => k ++ lit "=" ++ q v) labels.
Proof.
  induction labels as [|[k v] labels IH]; [reflexivity|].
  cbn [map forallb snd]. intros H. apply andb_prop in H as [Hv Hl].
  now rewrite (escape_plain v Hv), (IH Hl).
Qed.

Ltac same_text :=
  unfold encode_record, q, lit;
  repeat (progress (simpl; rewrite <- ?app_assoc));
  reflexivity.

(** C6, amended.  Every line the passes append is its record's name, its
    labels in the fixed order, each value between double quotes exactly as
    [str] gives it, and the value: nothing is escaped.  That line is the
    escaped rendering of the exposition format whenever no label value of the
    record holds a double quote, a backslash or a newline. *)
Theorem label_values_rendered_verbatim :
  (forall i, table_line i = rmap (encode_record (fun v => v)) (table_record i)) /\
  (forall i, chain_line i = rmap (encode_record (fun v => v)) (chain_record i)) /\
  (forall metric value i,
      counter_line metric value i
      = rmap (encode_record (fun v => v)) (counter_record metric value i)) /\
  (forall rec,
      forallb (fun kv => plain_value (snd kv)) (record_labels rec) = true ->
      encode_record (fun v => v) rec = encode_record escape_label_value rec).
Proof.
  repeat split.
  - intros i. unfold table_line, table_record.
    destruct (field i (lit "table") (lit "family")); simpl; [|reflexivity].
    destruct (field i (lit "table") (lit "name")); simpl; [|reflexivity].
    f_equal. same_text.
  - intros i. unfold chain_line, chain_record.
    destruct (field i (lit "chain") (lit "family")); simpl; [|reflexivity].
    destruct (field i (lit "chain") (lit "table")); simpl; [|reflexivity].
    destruct (field i (lit "chain") (lit "name")); simpl; [|reflexivity].
    f_equal. same_text.
  - intros metric value i. unfold counter_line, counter_record.
    destruct (field i (lit "counter") (lit "family")); simpl; [|reflexivity].
    destruct (field i (lit "counter") (lit "table")); simpl; [|reflexivity].
    destruct (field i (lit "counter") (lit "name")); simpl; [|reflexivity].
    destruct (field i (lit "counter") value); simpl; [|reflexivity].
    f_equal. same_text.
  - intros rec H. unfold encode_record. now rewrite (encode_labels_plain _ H).
Qed.

(** ** The handler *)

Lemma wire_app (a b : list event) : wire (a ++ b) = wire a ++ wire b.
Proof. unfold wire. apply filter_app. Qed.

Lemma wire_load_events (r : nft_reply) : wire (load_events r) = [].
Proof. unfold load_events. now destruct (rc r =? 0)%Z. Qed.

Lemma encode_landing_page : encode_utf8 landing_page = Ok landing_page.
Proof. vm_compute. reflexivity. Qed.

(** The [except] branch of [do_GET]: status line and headers go out, then
    [wfile.write] refuses the [str] it is given. *)
Lemma except_branch (e : pyexn) (w : world) :
  (emit (SendResponse 500) ;; emit EndHeaders ;; wfile_write (PyStr (format_exc e)))%py w
  = (Raise TypeError, mkWorld (ctx w) (trace w ++ [SendResponse 500; EndHeaders])).
Proof.
  unfold bind, emit, wfile_write, raise. simpl. now rewrite <- app_assoc.
Qed.

(** [do_GET] once the request target has parsed. *)
Lemma do_GET_parsed (req : request) (u : ParseResult) (r : nft_reply) (w : world) :
  url req = Ok u ->
  do_GET req r w =
  (if pystr_eqb (path u) (lit "/metrics") then
     try_except
       (generate_metrics r ;;
        emit (SendResponse 200) ;;
        emit (SendHeader (lit "Content-Type") CONTENT_TYPE_LATEST) ;;
        emit EndHeaders ;;
        text <- joined_metrics ;;
        body <- lift (encode_utf8 text) ;;
        wfile_write (PyBytes body))
       (fun e =>
          emit (SendResponse 500) ;;
          emit EndHeaders ;;
          wfile_write (PyStr (format_exc e)))
   else if pystr_eqb (path u) (lit "/") then
     emit (SendResponse 200) ;;
     emit EndHeaders ;;
     body <- lift (encode_utf8 landing_page) ;;
     wfile_write (PyBytes body)
   else
     emit (SendResponse 404) ;;
     emit EndHeaders)%py w.
Proof.
  intros Hu. unfold do_GET. unfold bind at 1. unfold lift at 1. now rewrite Hu.
Qed.

(** [do_GET] on [/metrics] when [generate_metrics] raises. *)
Lemma do_GET_metrics_raise (req : request) (u : ParseResult) (r : nft_reply)
      (w w1 : world) (e : pyexn) :
  url req = Ok u -> path u = lit "/metrics" ->
  generate_metrics r w = (Raise e, w1) ->
  do_GET req r w
  = (Raise TypeError, mkWorld (ctx w1) (trace w1 ++ [SendResponse 500; EndHeaders])).
Proof.
  intros Hu Hp Hg. rewrite (do_GET_parsed req u r w Hu), Hp, pystr_eqb_refl.
  unfold try_except. rewrite (bind_raise _ _ _ _ _ Hg). apply except_branch.
Qed.

(** C2, amended.  For a request whose target [urlparse] accepts, [do_GET]
    routes on the path of the parsed URL.  On [/metrics] it runs
    [generate_metrics] (the engine is asked once) and, when that returns and
    the joined lines encode, sends 200, the exposition content type and the
    encoded text.  On [/] it sends 200 and the landing page, leaving [ctx]
    alone and asking the engine nothing.  On any other path it sends 404 and
    no body. *)
Theorem do_GET_routes (req : request) (u : ParseResult) (r : nft_reply) (w : world) :
  url req = Ok u ->
  (path u = lit "/metrics" ->
   forall w1, generate_metrics r w = (Ok tt, w1) ->
     exists ms,
       metrics (ctx w1) = Some ms /\
       trace w1 = trace w ++ load_events r /\
       forall body, encode_utf8 (join [newline] ms) = Ok body ->
         do_GET req r w
         = (Ok tt, mkWorld (ctx w1)
                     (trace w1 ++ [SendResponse 200;
                                   SendHeader (lit "Content-Type") CONTENT_TYPE_LATEST;
                                   EndHeaders;
                                   WfileWrite body]))) /\
  (path u = lit "/" ->
   do_GET req r w
   = (Ok tt, mkWorld (ctx w)
               (trace w ++ [SendResponse 200; EndHeaders; WfileWrite landing_page]))) /\
  (path u <> lit "/metrics" -> path u <> lit "/" ->
   do_GET req r w
   = (Ok tt, mkWorld (ctx w) (trace w ++ [SendResponse 404; EndHeaders]))).
Proof.
  intros Hu. rewrite (do_GET_parsed req u r w Hu).
  split; [|split].
  - intros Hp w1 Hg.
    destruct (generate_metrics_ok_inv r w w1 Hg) as (v & ms & _ & _ & Hw1).
    exists ms. subst w1. simpl. split; [reflexivity|]. split; [reflexivity|].
    intros body Hbody. rewrite Hp, pystr_eqb_refl.
    unfold try_except. rewrite (bind_ok _ _ _ _ _ Hg).
    unfold bind, emit, joined_metrics, lift, wfile_write. simpl.
    rewrite Hbody. simpl. now rewrite <- !app_assoc.
  - intros Hp. rewrite Hp, pystr_eqb_refl.
    change (pystr_eqb (lit "/") (lit "/metrics")) with false. cbv iota.
    unfold bind, lift. rewrite encode_landing_page.
    unfold wfile_write, emit. simpl. now rewrite <- !app_assoc.
  - intros H1 H2.
    destruct (pystr_eqb (path u) (lit "/metrics")) eqn:E1.
    { apply pystr_eqb_eq in E1. contradiction. }
    destruct (pystr_eqb (path u) (lit "/")) eqn:E2.
    { apply pystr_eqb_eq in E2. contradiction. }
    unfold bind, emit. simpl. now rewrite <- !app_assoc.
Qed.

(** C10.  Two requests whose parsed URLs have the same path are served alike,
    whatever their query strings, fragments or other components. *)
Theorem do_GET_ignores_query (req1 req2 : request) (u1 u2 : ParseResult)
        (r : nft_reply) (w : world) :
  url req1 = Ok u1 -> url req2 = Ok u2 ->
  path u1 = path u2 ->
  do_GET req1 r w = do_GET req2 r w.
Proof.
  intros H1 H2 H.
  now rewrite (do_GET_parsed req1 u1 r w H1), (do_GET_parsed req2 u2 r w H2), H.
Qed.

(** [generate_metrics] raises exactly when loading or flattening does, and
    never touches the connection. *)
Lemma generate_metrics_raise_inv (r : nft_reply) (w w1 : world) (e : pyexn) :
  generate_metrics r w = (Raise e, w1) ->
  trace w1 = trace w ++ load_events r /\
  (loaded r = Raise e \/ exists v, loaded r = Ok v /\ flatten v = Raise e).
Proof.
  intros H. pose proof (generate_metrics_runs r w) as Hrun.
  destruct (loaded r) as [v|e'].
  - destruct (flatten v) as [ms|e''] eqn:Hflat.
    + rewrite Hrun in H. discriminate.
    + destruct Hrun as [m' Hrun]. rewrite Hrun in H. injection H as -> <-.
      split; [reflexivity|]. right. now exists v.
  - rewrite Hrun in H. injection H as -> <-. auto.
Qed.

Lemma generate_metrics_load_raise (r : nft_reply) (w : world) (e : pyexn) :
  loaded r = Raise e ->
  generate_metrics r w
  = (Raise e, mkWorld (mkContext (ruleset (ctx w)) (Some [])) (trace w ++ load_events r)).
Proof.
  intros H. pose proof (generate_metrics_runs r w) as Hrun. now rewrite H in Hrun.
Qed.

(** C3, amended.  When the engine reports a non-zero status,
    [load_nft_ruleset] logs the engine's diagnostic text at error level and
    goes on to parse the output: it raises exactly when [json.loads] or the
    lookup of [nftables] raises, and stores the snapshot otherwise.  When it
    does raise, [do_GET] sends status 500 on [/metrics] and the run-once
    process exits with status 1. *)
Theorem load_logs_engine_failure_and_parses (r : nft_reply) (w : world) :
  rc r <> 0%Z ->
  load_nft_ruleset r w =
    match loaded r with
    | Ok v =>
        (Ok tt,
         mkWorld (mkContext v (metrics (ctx w)))
           (trace w ++ [LogDebug (lit "loading nft ruleset"); NftCmd (lit "list ruleset");
                        LogError (error r); LogDebug (output r)]))
    | Raise e =>
        (Raise e,
         mkWorld (ctx w)
           (trace w ++ [LogDebug (lit "loading nft ruleset"); NftCmd (lit "list ruleset");
                        LogError (error r); LogDebug (output r)]))
    end /\
  (forall e, loaded r = Raise e ->
     (forall req u, url req = Ok u -> path u = lit "/metrics" ->
        exists rest,
          wire (trace (snd (do_GET req r w))) = wire (trace w) ++ SendResponse 500 :: rest) /\
     fst (run_once r w) = 1%Z).
Proof.
  intros Hrc. split.
  - rewrite load_runs. unfold load_events.
    destruct (rc r =? 0)%Z eqn:E; [apply Z.eqb_eq in E; contradiction|].
    reflexivity.
  - intros e He. pose proof (generate_metrics_load_raise r w e He) as Hg. split.
    + intros req u Hu Hp. rewrite (do_GET_metrics_raise req u r w _ e Hu Hp Hg). simpl.
      exists [EndHeaders]. rewrite !wire_app, wire_load_events, app_nil_r. reflexivity.
    + unfold run_once. now rewrite (bind_raise _ _ _ _ _ Hg).
Qed.

Lemma filter_in_none (k : pystr) (l : list json) :
  forallb other_kind l = true ->
  In k [lit "table"; lit "chain"; lit "counter"] ->
  filter_in k l = Ok [].
Proof.
  intros Hl Hk. induction l as [|o l IH]; [reflexivity|].
  simpl in Hl. apply andb_prop in Hl as [Ho Hl].
  unfold other_kind in Ho. apply andb_prop in Ho as [Hn Ho].
  destruct (entity_ok_obj o Ho) as [d ->]. simpl. rewrite (IH Hl). simpl.
  apply negb_true_iff in Hn.
  apply orb_false_elim in Hn as [Hn Hc]. apply orb_false_elim in Hn as [Ht Hch].
  simpl in Ht, Hch, Hc.
  destruct Hk as [<-|[<-|[<-|[]]]].
  - now rewrite Ht.
  - now rewrite Hch.
  - now rewrite Hc.
Qed.

(** A snapshot without table, chain or counter gives no line. *)
Lemma flatten_no_metric_entities (l : list json) :
  forallb other_kind l = true ->
  flatten (JArr l) = Ok [].
Proof.
  intros Hl. unfold flatten, pass, selected. simpl.
  rewrite !(filter_in_none _ l Hl); simpl; auto.
Qed.

(** C7.  When the engine succeeds and the snapshot holds no table, chain or
    counter (it is empty, or lists only objects of other kinds, such as the
    engine's [metainfo]), [do_GET] answers [/metrics] with 200, the exposition
    content type and an empty body, and the run-once process prints the empty
    text and exits with status 0; nothing is logged at error level. *)
Theorem empty_ruleset_is_served (req : request) (u : ParseResult) (r : nft_reply)
        (w : world) (l : list json) :
  rc r = 0%Z ->
  loaded r = Ok (JArr l) ->
  forallb other_kind l = true ->
  (url req = Ok u -> path u = lit "/metrics" ->
   do_GET req r w
   = (Ok tt,
      mkWorld (mkContext (JArr l) (Some []))
        (trace w ++ [LogDebug (lit "loading nft ruleset"); NftCmd (lit "list ruleset");
                     LogDebug (output r);
                     SendResponse 200;
                     SendHeader (lit "Content-Type") CONTENT_TYPE_LATEST;
                     EndHeaders;
                     WfileWrite []]))) /\
  run_once r w
  = (0%Z,
     mkWorld (mkContext (JArr l) (Some []))
       (trace w ++ [LogDebug (lit "loading nft ruleset"); NftCmd (lit "list ruleset");
                    LogDebug (output r); Print []])).
Proof.
  intros Hrc Hload Hl.
  pose proof (generate_metrics_runs r w) as Hg.
  rewrite Hload, (flatten_no_metric_entities l Hl) in Hg.
  unfold load_events in Hg. rewrite Hrc in Hg. simpl in Hg.
  split.
  - intros Hu Hp. rewrite (do_GET_parsed req u r w Hu), Hp, pystr_eqb_refl.
    unfold try_except. rewrite (bind_ok _ _ _ _ _ Hg).
    unfold bind, emit, joined_metrics, lift, wfile_write. simpl.
    now rewrite <- !app_assoc.
  - unfold run_once. rewrite (bind_ok _ _ _ _ _ Hg).
    unfold bind, joined_metrics, print, emit. simpl. now rewrite <- !app_assoc.
Qed.

(** What [scrape] returns, as a function of the engine's reply alone. *)
Lemma scrape_result (r : nft_reply) (w : world) :
  fst (scrape r w) =
  (v <-? loaded r ;; ms <-? flatten v ;; encode_utf8 (join [newline] ms))%result.
Proof.
  unfold scrape. pose proof (generate_metrics_runs r w) as Hg.
  destruct (loaded r) as [v|e]; simpl.
  - destruct (flatten v) as [ms|e]; simpl.
    + rewrite (bind_ok _ _ _ _ _ Hg). reflexivity.
    + destruct Hg as [m' Hg]. now rewrite (bind_raise _ _ _ _ _ Hg).
  - now rewrite (bind_raise _ _ _ _ _ Hg).
Qed.

(** What [do_GET] returns and what it leaves in the trace do not depend on
    the [ctx] it starts from. *)
Lemma do_GET_forgets_ctx (req : request) (r : nft_reply) (w w' : world) :
  trace w = trace w' ->
  fst (do_GET req r w) = fst (do_GET req r w') /\
  trace (snd (do_GET req r w)) = trace (snd (do_GET req r w')).
Proof.
  intros Ht. destruct (url req) as [u|e] eqn:Hu.
  2:{ unfold do_GET, bind, lift. rewrite Hu. simpl. auto. }
  rewrite !(do_GET_parsed req u r _ Hu).
  destruct (pystr_eqb (path u) (lit "/metrics")).
  - unfold try_except.
    pose proof (generate_metrics_runs r w) as Hg.
    pose proof (generate_metrics_runs r w') as Hg'.
    destruct (loaded r) as [v|e].
    + destruct (flatten v) as [ms|e].
      * rewrite (bind_ok _ _ _ _ _ Hg), (bind_ok _ _ _ _ _ Hg').
        unfold bind, emit, joined_metrics, lift. simpl.
        destruct (encode_utf8 (join [newline] ms)) as [body|e]; simpl.
        -- rewrite Ht. auto.
        -- unfold wfile_write, raise. simpl. rewrite Ht. auto.
      * destruct Hg as [m Hg]. destruct Hg' as [m' Hg'].
        rewrite (bind_raise _ _ _ _ _ Hg), (bind_raise _ _ _ _ _ Hg').
        rewrite !except_branch. simpl. rewrite Ht. auto.
    + rewrite (bind_raise _ _ _ _ _ Hg), (bind_raise _ _ _ _ _ Hg').
      rewrite !except_branch. simpl. rewrite Ht. auto.
  - destruct (pystr_eqb (path u) (lit "/")).
    + unfold bind, lift. rewrite encode_landing_page.
      unfold wfile_write, emit. simpl. rewrite Ht. auto.
    + unfold bind, emit. simpl. rewrite Ht. auto.
Qed.

(** C8.  Flattening and encoding depend on the snapshot alone: whatever
    [ctx] held before, [scrape] on the same reply gives the same bytes (or
    raises the same exception), in particular when it is run a second time on
    the world the first run left behind; and what a request puts on the
    connection does not depend on the [ctx] its handler started from. *)
Theorem scrape_twice_same_output (r : nft_reply) (w : world) :
  fst (scrape r (snd (scrape r w))) = fst (scrape r w) /\
  (forall w', fst (scrape r w') = fst (scrape r w)) /\
  (forall req parent parent',
      process_request parent req r = process_request parent' req r).
Proof.
  split; [|split].
  - now rewrite !scrape_result.
  - intros w'. now rewrite !scrape_result.
  - intros req parent parent'. unfold process_request.
    destruct (do_GET_forgets_ctx req r (mkWorld parent []) (mkWorld parent' []) eq_refl)
      as [Hres Htr].
    destruct (do_GET req r (mkWorld parent [])) as [[[]|e] w1];
      destruct (do_GET req r (mkWorld parent' [])) as [[[]|e'] w2];
      simpl in Hres, Htr; congruence.
Qed.

(** ** More on the handler *)

Lemma count_nft_cmd_app (a b : list event) :
  count_nft_cmd (a ++ b) = count_nft_cmd a + count_nft_cmd b.
Proof. unfold count_nft_cmd. now rewrite filter_app, length_app. Qed.

Lemma count_nft_cmd_load (r : nft_reply) : count_nft_cmd (load_events r) = 1.
Proof. unfold load_events. now destruct (rc r =? 0)%Z. Qed.

Lemma count_nft_cmd_response (r : nft_reply) :
  count_nft_cmd (snd (metrics_response r)) = 0.
Proof.
  unfold metrics_response.
  destruct (v <-? loaded r ;; flatten v)%result as [ms|e]; [|reflexivity].
  now destruct (encode_utf8 (join [newline] ms)).
Qed.

(** [do_GET] on [/metrics] when [generate_metrics] returns. *)
Lemma do_GET_metrics_return (req : request) (u : ParseResult) (r : nft_reply)
      (w w1 : world) (ms : list pystr) :
  url req = Ok u -> path u = lit "/metrics" ->
  generate_metrics r w = (Ok tt, w1) -> metrics (ctx w1) = Some ms ->
  do_GET req r w =
  match encode_utf8 (join [newline] ms) with
  | Ok body =>
      (Ok tt,
       mkWorld (ctx w1)
         (trace w1 ++ [SendResponse 200;
                       SendHeader (lit "Content-Type") CONTENT_TYPE_LATEST;
                       EndHeaders; WfileWrite body]))
  | Raise _ =>
      (Raise TypeError,
       mkWorld (ctx w1)
         (trace w1 ++ [SendResponse 200;
                       SendHeader (lit "Content-Type") CONTENT_TYPE_LATEST;
                       EndHeaders; SendResponse 500; EndHeaders]))
  end.
Proof.
  intros Hu Hp Hg Hms. rewrite (do_GET_parsed req u r w Hu), Hp, pystr_eqb_refl.
  unfold try_except. rewrite (bind_ok _ _ _ _ _ Hg).
  unfold bind, emit, joined_metrics, lift. simpl. rewrite Hms.
  destruct (encode_utf8 (join [newline] ms)) as [body|e]; simpl.
  - now rewrite <- !app_assoc.
  - unfold wfile_write, raise. simpl. now rewrite <- !app_assoc.
Qed.

(** What one call of [do_GET] returns and adds to the trace. *)
Lemma do_GET_trace (req : request) (r : nft_reply) (w : world) :
  trace (snd (do_GET req r w)) = trace w ++ handler_events req r.
Proof.
  unfold handler_events. destruct (url req) as [u|e] eqn:Hu.
  2:{ unfold do_GET, bind, lift. rewrite Hu. simpl. now rewrite app_nil_r. }
  destruct (pystr_eqb (path u) (lit "/metrics")) eqn:Hm.
  - apply pystr_eqb_eq in Hm. unfold metrics_response.
    pose proof (generate_metrics_runs r w) as Hg.
    destruct (loaded r) as [v|e]; simpl.
    + destruct (flatten v) as [ms|e]; simpl.
      * rewrite (do_GET_metrics_return req u r w _ ms Hu Hm Hg eq_refl).
        destruct (encode_utf8 (join [newline] ms)); simpl; now rewrite <- app_assoc.
      * destruct Hg as [m' Hg].
        rewrite (do_GET_metrics_raise req u r w _ e Hu Hm Hg). simpl.
        now rewrite <- app_assoc.
    + rewrite (do_GET_metrics_raise req u r w _ e Hu Hm Hg). simpl.
      now rewrite <- app_assoc.
  - rewrite (do_GET_parsed req u r w Hu), Hm.
    destruct (pystr_eqb (path u) (lit "/")).
    + unfold bind, lift. rewrite encode_landing_page.
      unfold wfile_write, emit. simpl. now rewrite <- !app_assoc.
    + unfold bind, emit. simpl. now rewrite <- !app_assoc.
Qed.

(** X1.  [do_GET] asks the engine exactly once when the path is [/metrics],
    whether the scrape succeeds or fails, and never otherwise (not on [/], not
    on an unknown path, not when the request target does not parse). *)
Theorem do_GET_asks_engine_once (req : request) (r : nft_reply) (w : world) :
  count_nft_cmd (trace (snd (do_GET req r w))) =
  count_nft_cmd (trace w) +
  match url req with
  | Ok u => if pystr_eqb (path u) (lit "/metrics") then 1 else 0
  | Raise _ => 0
  end.
Proof.
  rewrite do_GET_trace, count_nft_cmd_app. f_equal.
  unfold handler_events. destruct (url req) as [u|e]; [|reflexivity].
  destruct (pystr_eqb (path u) (lit "/metrics")).
  - now rewrite count_nft_cmd_app, count_nft_cmd_load, count_nft_cmd_response.
  - now destruct (pystr_eqb (path u) (lit "/")).
Qed.

(** X2.  Whatever the request and the engine's reply, what [do_GET] sends is
    one of six things: nothing (the target did not parse); 404 and the
    headers; 200, the headers and the landing page; 200, the content type,
    the headers and one body; 500 and the headers; or 200 with its headers
    followed by 500 with its headers.  A body is never written after a 500,
    and never twice. *)
Theorem do_GET_response_shapes (req : request) (r : nft_reply) (w : world) :
  exists sent,
    wire (trace (snd (do_GET req r w))) = wire (trace w) ++ sent /\
    (sent = [] \/
     sent = [SendResponse 404; EndHeaders] \/
     sent = [SendResponse 200; EndHeaders; WfileWrite landing_page] \/
     (exists body,
        sent = [SendResponse 200; SendHeader (lit "Content-Type") CONTENT_TYPE_LATEST;
                EndHeaders; WfileWrite body]) \/
     sent = [SendResponse 500; EndHeaders] \/
     sent = [SendResponse 200; SendHeader (lit "Content-Type") CONTENT_TYPE_LATEST;
             EndHeaders; SendResponse 500; EndHeaders]).
Proof.
  exists (wire (handler_events req r)). split.
  - now rewrite do_GET_trace, wire_app.
  - unfold handler_events. destruct (url req) as [u|e]; [|now left].
    destruct (pystr_eqb (path u) (lit "/metrics")).
    + rewrite wire_app, wire_load_events. simpl. unfold metrics_response.
      destruct (v <-? loaded r ;; flatten v)%result as [ms|e]; [|auto 6].
      destruct (encode_utf8 (join [newline] ms)) as [body|e]; simpl; [|auto 7].
      right. right. right. left. now exists body.
    + destruct (pystr_eqb (path u) (lit "/")); simpl; auto.
Qed.

(** X3.  When the lines are there but do not encode (a label holds a lone
    surrogate), [do_GET] has already sent 200 and the headers: the [except]
    branch then sends a second status line, 500, behind them, and
    [wfile.write] raises [TypeError] as in every failure. *)
Theorem do_GET_encode_failure (req : request) (u : ParseResult) (r : nft_reply)
        (w w1 : world) (ms : list pystr) (e : pyexn) :
  url req = Ok u -> path u = lit "/metrics" ->
  generate_metrics r w = (Ok tt, w1) -> metrics (ctx w1) = Some ms ->
  encode_utf8 (join [newline] ms) = Raise e ->
  do_GET req r w
  = (Raise TypeError,
     mkWorld (ctx w1)
       (trace w1 ++ [SendResponse 200;
                     SendHeader (lit "Content-Type") CONTENT_TYPE_LATEST;
                     EndHeaders; SendResponse 500; EndHeaders])).
Proof.
  intros Hu Hp Hg Hms He.
  rewrite (do_GET_metrics_return req u r w w1 ms Hu Hp Hg Hms). now rewrite He.
Qed.

(** ** Scrapes that stop half-way *)

(** A loop stops at the first element whose body raises; what the elements
    before it appended stays. *)
Lemma for_each_stops (g : json -> result (list pystr)) (body : json -> M unit) :
  (forall i w m ls, metrics (ctx w) = Some m -> g i = Ok ls ->
     body i w = (Ok tt, with_metrics w (m ++ ls))) ->
  forall l1 o l2 w m lss e w',
    metrics (ctx w) = Some m -> mapM g l1 = Ok lss ->
    body o (with_metrics w (m ++ concat lss)) = (Raise e, w') ->
    for_each (l1 ++ o :: l2) body w = (Raise e, w').
Proof.
  intros Hok l1. induction l1 as [|i l1 IH]; intros o l2 w m lss e w' Hm Hmap Hbody.
  - simpl in Hmap. injection Hmap as <-. simpl in Hbody. rewrite app_nil_r in Hbody.
    rewrite (with_metrics_same w m Hm) in Hbody.
    simpl. now rewrite (bind_raise _ _ _ _ _ Hbody).
  - apply mapM_cons_inv in Hmap as (ls & lss' & Hg & Hl & ->).
    simpl. rewrite (bind_ok _ _ _ _ _ (Hok i w m ls Hm Hg)).
    apply (IH o l2 (with_metrics w (m ++ ls)) (m ++ ls) lss' e w' eq_refl Hl).
    rewrite with_metrics_twice. simpl in Hbody. now rewrite app_assoc in Hbody.
Qed.

Lemma single_lines_of (f : json -> result pystr) (sel : list json) (T : list pystr) :
  mapM f sel = Ok T ->
  exists lss, mapM (fun i => (x <-? f i ;; Ok [x])%result) sel = Ok lss /\ concat lss = T.
Proof.
  revert T. induction sel as [|i sel IH]; intros T H.
  - simpl in H. injection H as <-. now exists [].
  - apply mapM_cons_inv in H as (x & T' & Hx & HT & ->).
    destruct (IH T' HT) as (lss & Hl & <-).
    exists ([x] :: lss). simpl. now rewrite Hx, Hl.
Qed.

Lemma find_objs_selected (kind : pystr) (w : world) (sel : list json) :
  selected kind (ruleset (ctx w)) = Ok sel -> _find_objs kind w = (Ok sel, w).
Proof.
  unfold selected, _find_objs, bind, get_ruleset, lift. now intros ->.
Qed.

(** X4.  A table object whose line cannot be made (a field is missing, or
    the member is no object) stops the whole scrape: [generate_metrics] raises
    what the line raises, before any chain or counter is looked at, and
    [ctx.metrics] is left with the lines of the tables that stand before it in
    the snapshot. *)
Theorem malformed_table_stops_the_scrape
    (r : nft_reply) (w : world) (v : json) (s1 s2 : list json) (o : json)
    (T : list pystr) (e : pyexn) :
  loaded r = Ok v ->
  selected (lit "table") v = Ok (s1 ++ o :: s2) ->
  mapM table_line s1 = Ok T ->
  table_line o = Raise e ->
  generate_metrics r w
  = (Raise e, mkWorld (mkContext v (Some T)) (trace w ++ load_events r)).
Proof.
  intros Hload Hsel HT Ho.
  assert (Hstep : generate_metrics r w =
    match load_nft_ruleset r (mkWorld (mkContext (ruleset (ctx w)) (Some [])) (trace w)) with
    | (Ok _, w') =>
        (generate_table_metrics ;; generate_chain_metrics ;; generate_counter_metrics)%py w'
    | (Raise e, w') => (Raise e, w')
    end) by reflexivity.
  rewrite load_runs, Hload in Hstep. simpl in Hstep. rewrite Hstep.
  apply bind_raise. unfold generate_table_metrics.
  rewrite (bind_ok _ _ _ _ _
             (find_objs_selected (lit "table")
                (mkWorld (mkContext v (Some [])) (trace w ++ load_events r)) _ Hsel)).
  destruct (single_lines_of table_line s1 T HT) as (lss & Hlss & <-).
  apply (for_each_stops table_lines) with (m := []) (lss := lss).
  - apply table_body_ok.
  - reflexivity.
  - exact Hlss.
  - match goal with
    | |- bind lookup_append _ ?w0 = _ =>
        rewrite (bind_ok _ _ _ _ _ (lookup_append_some w0 ([] ++ concat lss) eq_refl))
    end.
    unfold bind, lift. now rewrite Ho.
Qed.

(** X5.  [generate_counter_metrics] appends a counter's packets line before
    it builds the bytes line: when the bytes line cannot be made, the pass
    raises with the packets line of that counter already in [ctx.metrics],
    behind the complete pairs of the counters before it. *)
Theorem counter_pass_stops_after_packets
    (w : world) (m : list pystr) (s1 s2 : list json) (o : json)
    (K : list (list pystr)) (p : pystr) (e : pyexn) :
  metrics (ctx w) = Some m ->
  selected (lit "counter") (ruleset (ctx w)) = Ok (s1 ++ o :: s2) ->
  mapM counter_lines s1 = Ok K ->
  counter_line (lit "nft_counter_packets") (lit "packets") o = Ok p ->
  counter_line (lit "nft_counter_bytes") (lit "bytes") o = Raise e ->
  generate_counter_metrics w = (Raise e, with_metrics w (m ++ concat K ++ [p])).
Proof.
  intros Hm Hsel HK Hp Hb. unfold generate_counter_metrics.
  rewrite (bind_ok _ _ _ _ _ (find_objs_selected (lit "counter") _ _ Hsel)).
  apply (for_each_stops counter_lines) with (m := m) (lss := K).
  - apply counter_body_ok.
  - exact Hm.
  - exact HK.
  - rewrite (bind_ok _ _ _ _ _
               (lookup_append_some (with_metrics w (m ++ concat K)) (m ++ concat K)
                  eq_refl)).
    unfold bind at 1. unfold lift at 1. rewrite Hp.
    rewrite (bind_ok _ _ _ _ _
               (metrics_append_some p (with_metrics w (m ++ concat K)) (m ++ concat K)
                  eq_refl)).
    rewrite with_metrics_twice.
    rewrite (bind_ok _ _ _ _ _
               (lookup_append_some (with_metrics w ((m ++ concat K) ++ [p]))
                  ((m ++ concat K) ++ [p]) eq_refl)).
    unfold bind, lift. rewrite Hb, <- app_assoc. reflexivity.
Qed.

(** ** The text of a line *)

Lemma lit_of_string (t : String.string) :
  String.string_of_list_ascii (map ascii_of_N (lit t)) = t.
Proof.
  unfold lit. rewrite map_map.
  rewrite (map_ext _ (fun a => a)) by apply ascii_N_embedding.
  rewrite map_id. apply String.string_of_list_ascii_of_string.
Qed.

Lemma int_of_text_str_of_int (z : Z) : int_of_text (str_of_int z) = Some z.
Proof.
  unfold int_of_text, str_of_int. rewrite lit_of_string.
  rewrite NilZero.isi.
  - simpl. now rewrite DecimalZ.of_to.
  - destruct z; simpl; try discriminate.
    intros H. injection H as H. now apply DecimalPos.Unsigned.to_uint_nonnil in H.
  - destruct z; simpl; try discriminate.
    intros H. injection H as H. now apply DecimalPos.Unsigned.to_uint_nonnil in H.
Qed.

Lemma digits_have_no_space (d : Decimal.uint) :
  forallb (fun c => negb (c =? 32)%N) (lit (NilEmpty.string_of_uint d)) = true.
Proof.
  induction d; simpl; auto.
Qed.

Lemma str_of_int_has_no_space (z : Z) :
  forallb (fun c => negb (c =? 32)%N) (str_of_int z) = true.
Proof.
  unfold str_of_int.
  assert (H : forall d, forallb (fun c => negb (c =? 32)%N)
                          (lit (NilZero.string_of_uint d)) = true).
  { intros d. destruct d; try apply (digits_have_no_space (Decimal.D0 d));
      try reflexivity; apply digits_have_no_space. }
  destruct (Z.to_int z) as [d|d]; simpl.
  - apply H.
  - apply (H d).
Qed.

Lemma until_space_app (v rest : pystr) :
  forallb (fun c => negb (c =? 32)%N) v = true ->
  until_space (v ++ 32%N :: rest) = v.
Proof.
  induction v as [|c v IH]; simpl; [reflexivity|].
  intros H. apply andb_prop in H as [Hc Hv].
  destruct (c =? 32)%N; [discriminate|]. now rewrite IH.
Qed.

Lemma last_field_app (front v : pystr) :
  forallb (fun c => negb (c =? 32)%N) v = true ->
  last_field (front ++ 32%N :: v) = v.
Proof.
  intros H. unfold last_field.
  rewrite rev_app_distr. simpl. rewrite <- app_assoc. simpl.
  rewrite until_space_app.
  - apply rev_involutive.
  - rewrite forallb_forall in *. intros c Hc. apply H. now apply in_rev.
Qed.

(** A counter line ends with a space and the text of its value. *)
Lemma counter_line_ends (metric value : pystr) (i v : json) (x : pystr) :
  counter_line metric value i = Ok x ->
  field i (lit "counter") value = Ok v ->
  exists front, x = front ++ 32%N :: py_str v.
Proof.
  unfold counter_line. intros Hx Hv.
  destruct (field i (lit "counter") (lit "family")) as [f|]; [|discriminate].
  destruct (field i (lit "counter") (lit "table")) as [t|]; [|discriminate].
  destruct (field i (lit "counter") (lit "name")) as [n|]; [|discriminate].
  rewrite Hv in Hx. cbn [rbind] in Hx. injection Hx as <-.
  exists (metric ++ lit "{family=" ++ q (py_str f) ++ lit ", table=" ++ q (py_str t) ++
          lit ", name=" ++ q (py_str n) ++ lit "}").
  same_text.
Qed.

(** X6.  The value a counter line ends with is the decimal text of the
    integer listed under [packets] or [bytes]: the last field of the line
    reads back to exactly that integer, whatever the labels hold. *)
Theorem counter_value_reads_back (metric value : pystr) (i : json) (x : pystr) (z : Z) :
  counter_line metric value i = Ok x ->
  field i (lit "counter") value = Ok (JInt z) ->
  int_of_text (last_field x) = Some z.
Proof.
  intros Hx Hv.
  destruct (counter_line_ends metric value i (JInt z) x Hx Hv) as [front ->].
  change (py_str (JInt z)) with (str_of_int z).
  rewrite last_field_app by apply str_of_int_has_no_space.
  apply int_of_text_str_of_int.
Qed.

Lemma Ok_inj {A} (a b : A) : Ok a = Ok b -> a = b.
Proof. congruence. Qed.

(** Two texts that agree up to and after their first double quote. *)
Lemma quoted_split (a a' r r' : pystr) :
  no_quote a = true -> no_quote a' = true ->
  a ++ dquote :: r = a' ++ dquote :: r' ->
  a = a' /\ r = r'.
Proof.
  revert a'. induction a as [|c a IH]; intros [|c' a'] Ha Ha' E; simpl in *.
  - injection E as ->. auto.
  - injection E as <- _. apply andb_prop in Ha' as [Hc _].
    now rewrite N.eqb_refl in Hc.
  - injection E as -> _. apply andb_prop in Ha as [Hc _].
    now rewrite N.eqb_refl in Hc.
  - injection E as -> E. apply andb_prop in Ha as [_ Ha].
    apply andb_prop in Ha' as [_ Ha'].
    destruct (IH a' Ha Ha' E) as [-> ->]. auto.
Qed.

Lemma table_line_text (i family name : json) :
  field i (lit "table") (lit "family") = Ok family ->
  field i (lit "table") (lit "name") = Ok name ->
  table_line i
  = Ok ((lit "nft_table{family=" ++ [dquote]) ++ py_str family ++
        dquote :: (lit ", name=" ++ [dquote]) ++ py_str name ++ dquote :: lit "} 1").
Proof.
  intros Hf Hn. unfold table_line. rewrite Hf, Hn. cbn [rbind]. f_equal. same_text.
Qed.

Lemma chain_line_text (i family table name : json) :
  field i (lit "chain") (lit "family") = Ok family ->
  field i (lit "chain") (lit "table") = Ok table ->
  field i (lit "chain") (lit "name") = Ok name ->
  chain_line i
  = Ok ((lit "nft_chain{family=" ++ [dquote]) ++ py_str family ++
        dquote :: (lit ", table=" ++ [dquote]) ++ py_str table ++
        dquote :: (lit ", name=" ++ [dquote]) ++ py_str name ++ dquote :: lit "} 1").
Proof.
  intros Hf Ht Hn. unfold chain_line. rewrite Hf, Ht, Hn. cbn [rbind]. f_equal.
  same_text.
Qed.

Lemma counter_line_text (metric value : pystr) (i family table name v : json) :
  field i (lit "counter") (lit "family") = Ok family ->
  field i (lit "counter") (lit "table") = Ok table ->
  field i (lit "counter") (lit "name") = Ok name ->
  field i (lit "counter") value = Ok v ->
  counter_line metric value i
  = Ok ((metric ++ lit "{family=" ++ [dquote]) ++ py_str family ++
        dquote :: (lit ", table=" ++ [dquote]) ++ py_str table ++
        dquote :: (lit ", name=" ++ [dquote]) ++ py_str name ++
        dquote :: lit "} " ++ py_str v).
Proof.
  intros Hf Ht Hn Hv. unfold counter_line. rewrite Hf, Ht, Hn, Hv. cbn [rbind].
  f_equal. same_text.
Qed.

(** X7.  Two table objects whose family texts hold no double quote get the
    same line only if they have the same family and the same name. *)
Theorem table_lines_tell_tables_apart (i1 i2 f1 n1 f2 n2 : json) (x : pystr) :
  field i1 (lit "table") (lit "family") = Ok f1 ->
  field i1 (lit "table") (lit "name") = Ok n1 ->
  field i2 (lit "table") (lit "family") = Ok f2 ->
  field i2 (lit "table") (lit "name") = Ok n2 ->
  no_quote (py_str f1) = true -> no_quote (py_str f2) = true ->
  table_line i1 = Ok x -> table_line i2 = Ok x ->
  py_str f1 = py_str f2 /\ py_str n1 = py_str n2.
Proof.
  intros Hf1 Hn1 Hf2 Hn2 Q1 Q2 H1 H2.
  rewrite (table_line_text i1 f1 n1 Hf1 Hn1) in H1.
  rewrite (table_line_text i2 f2 n2 Hf2 Hn2) in H2.
  rewrite <- H2 in H1. apply Ok_inj in H1. rename H1 into E.
  apply app_inv_head in E.
  apply quoted_split in E as [EF E]; [|assumption..].
  apply app_inv_head in E. apply app_inv_tail in E. auto.
Qed.

(** X8.  Two chain objects whose family and table texts hold no double quote
    get the same line only if family, table and name agree. *)
Theorem chain_lines_tell_chains_apart (i1 i2 f1 t1 n1 f2 t2 n2 : json) (x : pystr) :
  field i1 (lit "chain") (lit "family") = Ok f1 ->
  field i1 (lit "chain") (lit "table") = Ok t1 ->
  field i1 (lit "chain") (lit "name") = Ok n1 ->
  field i2 (lit "chain") (lit "family") = Ok f2 ->
  field i2 (lit "chain") (lit "table") = Ok t2 ->
  field i2 (lit "chain") (lit "name") = Ok n2 ->
  no_quote (py_str f1) = true -> no_quote (py_str f2) = true ->
  no_quote (py_str t1) = true -> no_quote (py_str t2) = true ->
  chain_line i1 = Ok x -> chain_line i2 = Ok x ->
  py_str f1 = py_str f2 /\ py_str t1 = py_str t2 /\ py_str n1 = py_str n2.
Proof.
  intros Hf1 Ht1 Hn1 Hf2 Ht2 Hn2 Qf1 Qf2 Qt1 Qt2 H1 H2.
  rewrite (chain_line_text i1 f1 t1 n1 Hf1 Ht1 Hn1) in H1.
  rewrite (chain_line_text i2 f2 t2 n2 Hf2 Ht2 Hn2) in H2.
  rewrite <- H2 in H1. apply Ok_inj in H1. rename H1 into E.
  apply app_inv_head in E.
  apply quoted_split in E as [EF E]; [|assumption..].
  apply app_inv_head in E.
  apply quoted_split in E as [ET E]; [|assumption..].
  apply app_inv_head in E. apply app_inv_tail in E. auto.
Qed.

(** X9.  Two counter objects whose family, table and name texts hold no
    double quote get the same line of one metric only if family, table and
    name agree, and then the values agree too. *)
Theorem counter_lines_tell_counters_apart
    (metric value : pystr) (i1 i2 f1 t1 n1 v1 f2 t2 n2 v2 : json) (x : pystr) :
  field i1 (lit "counter") (lit "family") = Ok f1 ->
  field i1 (lit "counter") (lit "table") = Ok t1 ->
  field i1 (lit "counter") (lit "name") = Ok n1 ->
  field i1 (lit "counter") value = Ok v1 ->
  field i2 (lit "counter") (lit "family") = Ok f2 ->
  field i2 (lit "counter") (lit "table") = Ok t2 ->
  field i2 (lit "counter") (lit "name") = Ok n2 ->
  field i2 (lit "counter") value = Ok v2 ->
  no_quote (py_str f1) = true -> no_quote (py_str f2) = true ->
  no_quote (py_str t1) = true -> no_quote (py_str t2) = true ->
  no_quote (py_str n1) = true -> no_quote (py_str n2) = true ->
  counter_line metric value i1 = Ok x -> counter_line metric value i2 = Ok x ->
  py_str f1 = py_str f2 /\ py_str t1 = py_str t2 /\ py_str n1 = py_str n2 /\
  py_str v1 = py_str v2.
Proof.
  intros Hf1 Ht1 Hn1 Hv1 Hf2 Ht2 Hn2 Hv2 Qf1 Qf2 Qt1 Qt2 Qn1 Qn2 H1 H2.
  rewrite (counter_line_text metric value i1 f1 t1 n1 v1 Hf1 Ht1 Hn1 Hv1) in H1.
  rewrite (counter_line_text metric value i2 f2 t2 n2 v2 Hf2 Ht2 Hn2 Hv2) in H2.
  rewrite <- H2 in H1. apply Ok_inj in H1. rename H1 into E.
  apply app_inv_head in E.
  apply quoted_split in E as [EF E]; [|assumption..].
  apply app_inv_head in E.
  apply quoted_split in E as [ET E]; [|assumption..].
  apply app_inv_head in E.
  apply quoted_split in E as [EN E]; [|assumption..].
  apply app_inv_head in E. auto.
Qed.

(** X10.  Nothing is escaped, so a double quote in a label can make two
    different tables render as the same series: the table of family [a] named
    [b", name="c] and the table of family [a", name="b] named [c] get the
    same line. *)
Theorem quote_in_label_merges_tables (a b c : pystr) :
  table_line (table_entity a (b ++ name_separator ++ c))
  = table_line (table_entity (a ++ name_separator ++ b) c) /\
  a <> a ++ name_separator ++ b.
Proof.
  split.
  - rewrite (table_line_text (table_entity a (b ++ name_separator ++ c))
               (JStr a) (JStr (b ++ name_separator ++ c)) eq_refl eq_refl).
    rewrite (table_line_text (table_entity (a ++ name_separator ++ b) c)
               (JStr (a ++ name_separator ++ b)) (JStr c) eq_refl eq_refl).
    f_equal. unfold name_separator. cbn [py_str].
    rewrite <- !app_assoc. reflexivity.
  - intros E. rewrite <- (app_nil_r a) in E at 1.
    apply app_inv_head in E. discriminate.
Qed.

(** ** Which scrapes succeed *)

Lemma mapM_In_ok {A B} (f : A -> result B) (l : list A) (bs : list B) (a : A) :
  mapM f l = Ok bs -> In a l -> exists b, f a = Ok b.
Proof.
  revert bs. induction l as [|a' l IH]; intros bs H Hin; [destruct Hin|].
  apply mapM_cons_inv in H as (b & bs' & Hb & Hl & _).
  destruct Hin as [<-|Hin]; [now exists b|now apply (IH bs')].
Qed.

Lemma field_has (d : list (pystr * json)) (kind n : pystr) (e v : json) :
  dict_get kind d = Some e -> field (JObj d) kind n = Ok v ->
  exists t, e = JObj t /\ dict_has n t = true.
Proof.
  unfold field, subscript. intros He. rewrite He. cbn [rbind].
  destruct e; try discriminate.
  unfold dict_has. destruct (dict_get n d0) eqn:Hn; [|discriminate].
  intros _. exists d0. now rewrite Hn.
Qed.

Lemma table_line_fields (d : list (pystr * json)) (x : pystr) :
  table_line (JObj d) = Ok x ->
  kind_ok (lit "table") [lit "family"; lit "name"] d = true.
Proof.
  unfold table_line, kind_ok. intros H.
  destruct (dict_get (lit "table") d) as [e|] eqn:He; [|reflexivity].
  destruct (field (JObj d) (lit "table") (lit "family")) as [f|] eqn:Hf; [|discriminate].
  destruct (field (JObj d) (lit "table") (lit "name")) as [n|] eqn:Hn; [|discriminate].
  destruct (field_has d _ _ e f He Hf) as (t & -> & H1).
  destruct (field_has d _ _ _ n He Hn) as (t' & Et & H2). injection Et as <-.
  unfold has_fields. cbn [forallb]. now rewrite H1, H2.
Qed.

Lemma chain_line_fields (d : list (pystr * json)) (x : pystr) :
  chain_line (JObj d) = Ok x ->
  kind_ok (lit "chain") [lit "family"; lit "table"; lit "name"] d = true.
Proof.
  unfold chain_line, kind_ok. intros H.
  destruct (dict_get (lit "chain") d) as [e|] eqn:He; [|reflexivity].
  destruct (field (JObj d) (lit "chain") (lit "family")) as [f|] eqn:Hf; [|discriminate].
  destruct (field (JObj d) (lit "chain") (lit "table")) as [tb|] eqn:Ht; [|discriminate].
  destruct (field (JObj d) (lit "chain") (lit "name")) as [n|] eqn:Hn; [|discriminate].
  destruct (field_has d _ _ e f He Hf) as (t & -> & H1).
  destruct (field_has d _ _ _ tb He Ht) as (t' & Et & H2). injection Et as <-.
  destruct (field_has d _ _ _ n He Hn) as (t' & Et & H3). injection Et as <-.
  unfold has_fields. cbn [forallb]. now rewrite H1, H2, H3.
Qed.

Lemma counter_lines_fields (d : list (pystr * json)) (ls : list pystr) :
  counter_lines (JObj d) = Ok ls ->
  kind_ok (lit "counter")
    [lit "family"; lit "table"; lit "name"; lit "packets"; lit "bytes"] d = true.
Proof.
  unfold counter_lines, counter_line, kind_ok. intros H.
  destruct (dict_get (lit "counter") d) as [e|] eqn:He; [|reflexivity].
  destruct (field (JObj d) (lit "counter") (lit "family")) as [f|] eqn:Hf; [|discriminate].
  destruct (field (JObj d) (lit "counter") (lit "table")) as [tb|] eqn:Ht; [|discriminate].
  destruct (field (JObj d) (lit "counter") (lit "name")) as [n|] eqn:Hn; [|discriminate].
  destruct (field (JObj d) (lit "counter") (lit "packets")) as [pk|] eqn:Hp; [|discriminate].
  destruct (field (JObj d) (lit "counter") (lit "bytes")) as [by_|] eqn:Hb; [|discriminate].
  destruct (field_has d _ _ e f He Hf) as (t & -> & H1).
  destruct (field_has d _ _ _ tb He Ht) as (t' & Et & H2). injection Et as <-.
  destruct (field_has d _ _ _ n He Hn) as (t' & Et & H3). injection Et as <-.
  destruct (field_has d _ _ _ pk He Hp) as (t' & Et & H4). injection Et as <-.
  destruct (field_has d _ _ _ by_ He Hb) as (t' & Et & H5). injection Et as <-.
  unfold has_fields. cbn [forallb]. now rewrite H1, H2, H3, H4, H5.
Qed.

Lemma selected_object (k : pystr) (d : list (pystr * json)) (l : list json) :
  In (JObj d) l -> dict_get k d <> None ->
  In (JObj d) (filter (py_in_true k) l).
Proof.
  intros Hin Hk. apply filter_In. split; [assumption|].
  unfold py_in_true, py_in, dict_has. now destruct (dict_get k d).
Qed.

(** X11.  For a snapshot that is a list of objects, [generate_metrics]
    returns exactly when every object is well formed: what it holds under
    [table], [chain] or [counter] is an object with all the fields the passes
    read.  One object short of a field makes the whole scrape raise. *)
Theorem scrape_succeeds_iff_entities_ok (r : nft_reply) (w : world) (l : list json) :
  loaded r = Ok (JArr l) ->
  forallb is_object l = true ->
  (exists w', generate_metrics r w = (Ok tt, w')) <-> forallb entity_ok l = true.
Proof.
  intros Hload Hobj. split.
  - intros [w' Hg].
    destruct (generate_metrics_ok_inv r w w' Hg) as (v & ms & Hv & Hflat & _).
    rewrite Hload in Hv. injection Hv as <-.
    destruct (flatten_inv _ _ Hflat) as (os & T & C & KK & Hos & HT & HC & HK & _).
    simpl in Hos. injection Hos as <-.
    apply forallb_forall. intros o Ho.
    rewrite forallb_forall in Hobj. specialize (Hobj o Ho).
    destruct o; try discriminate. simpl.
    rewrite !andb_true_iff. repeat split.
    + destruct (dict_get (lit "table") d) as [e|] eqn:He.
      * destruct (mapM_In_ok _ _ _ (JObj d) HT) as [x Hx].
        { apply selected_object; [assumption|]. now rewrite He. }
        now apply table_line_fields in Hx.
      * unfold kind_ok. now rewrite He.
    + destruct (dict_get (lit "chain") d) as [e|] eqn:He.
      * destruct (mapM_In_ok _ _ _ (JObj d) HC) as [x Hx].
        { apply selected_object; [assumption|]. now rewrite He. }
        now apply chain_line_fields in Hx.
      * unfold kind_ok. now rewrite He.
    + destruct (dict_get (lit "counter") d) as [e|] eqn:He.
      * destruct (mapM_In_ok _ _ _ (JObj d) HK) as [x Hx].
        { apply selected_object; [assumption|]. now rewrite He. }
        now apply counter_lines_fields in Hx.
      * unfold kind_ok. now rewrite He.
  - intros Hl.
    destruct (passes_ok l Hl) as (T & C & KK & _ & _ & _ & Hflat).
    pose proof (generate_metrics_runs r w) as Hrun.
    rewrite Hload, Hflat in Hrun. eexists. exact Hrun.
Qed.

(** ** Loading, and documents of another shape *)

(** X12.  How a scrape fails at loading.  When [json.loads] raises, that
    exception leaves [generate_metrics]; when the document is an object
    without [nftables], [KeyError] does; when the document is no object,
    [TypeError] does.  In all three cases [ctx.ruleset] keeps the snapshot of
    the scrape before and [ctx.metrics] is the empty list.  Otherwise
    [ctx.ruleset] becomes the [nftables] member, whatever comes after. *)
Theorem scrape_load_failures (r : nft_reply) (w : world) :
  match loads r with
  | Raise e =>
      generate_metrics r w
      = (Raise e, mkWorld (mkContext (ruleset (ctx w)) (Some [])) (trace w ++ load_events r))
  | Ok (JObj d) =>
      match dict_get (lit "nftables") d with
      | None =>
          generate_metrics r w
          = (Raise KeyError,
             mkWorld (mkContext (ruleset (ctx w)) (Some [])) (trace w ++ load_events r))
      | Some v => ruleset (ctx (snd (generate_metrics r w))) = v
      end
  | Ok _ =>
      generate_metrics r w
      = (Raise TypeError,
         mkWorld (mkContext (ruleset (ctx w)) (Some [])) (trace w ++ load_events r))
  end.
Proof.
  pose proof (generate_metrics_runs r w) as Hrun. unfold loaded in Hrun.
  destruct (loads r) as [doc|e]; [|exact Hrun].
  destruct doc; try exact Hrun.
  unfold subscript in Hrun. cbn [rbind] in Hrun.
  destruct (dict_get (lit "nftables") d) as [v|]; [|exact Hrun].
  destruct (flatten v) as [ms|e].
  - now rewrite Hrun.
  - destruct Hrun as [m' Hrun]. now rewrite Hrun.
Qed.

(** X13.  The run-once process exits with status 0 exactly when loading and
    flattening succeed and standard output can encode every character of the
    joined lines, and then it has printed that text; otherwise it exits with
    status 1 and has printed nothing.  Either way it asked the engine once. *)
Theorem run_once_outcome (r : nft_reply) (w : world) :
  match (v <-? loaded r ;; flatten v)%result with
  | Ok ms =>
      if forallb stdout_encodable (join [newline] ms) then
        fst (run_once r w) = 0%Z /\
        trace (snd (run_once r w))
        = trace w ++ load_events r ++ [Print (join [newline] ms)]
      else
        fst (run_once r w) = 1%Z /\
        trace (snd (run_once r w)) = trace w ++ load_events r
  | Raise _ =>
      fst (run_once r w) = 1%Z /\
      trace (snd (run_once r w)) = trace w ++ load_events r
  end.
Proof.
  pose proof (generate_metrics_runs r w) as Hg. unfold run_once.
  destruct (loaded r) as [v|e]; cbn [rbind].
  - destruct (flatten v) as [ms|e].
    + rewrite (bind_ok _ _ _ _ _ Hg).
      unfold bind, joined_metrics, print, emit. simpl.
      destruct (forallb stdout_encodable (join [newline] ms)); simpl.
      * now rewrite <- app_assoc.
      * auto.
    + destruct Hg as [m' Hg]. now rewrite (bind_raise _ _ _ _ _ Hg).
  - now rewrite (bind_raise _ _ _ _ _ Hg).
Qed.

(** X14.  Whenever [do_GET] answers [/metrics] normally, the body it writes
    is the UTF-8 encoding of the text the run-once process has to print for
    the same reply: run-once prints that text and exits with status 0 when
    standard output can encode it, and exits with status 1 having printed
    nothing when it cannot. *)
Theorem metrics_body_is_run_once_text
    (req : request) (u : ParseResult) (r : nft_reply) (w w2 : world) :
  url req = Ok u -> path u = lit "/metrics" ->
  do_GET req r w = (Ok tt, w2) ->
  exists text body,
    encode_utf8 text = Ok body /\
    trace w2 = trace w ++ load_events r ++
               [SendResponse 200; SendHeader (lit "Content-Type") CONTENT_TYPE_LATEST;
                EndHeaders; WfileWrite body] /\
    run_once r w
    = if forallb stdout_encodable text then
        (0%Z, mkWorld (ctx w2) (trace w ++ load_events r ++ [Print text]))
      else (1%Z, mkWorld (ctx w2) (trace w ++ load_events r)).
Proof.
  intros Hu Hp Hget.
  pose proof (generate_metrics_runs r w) as Hg.
  destruct (loaded r) as [v|e].
  2:{ rewrite (do_GET_metrics_raise req u r w _ e Hu Hp Hg) in Hget. discriminate. }
  destruct (flatten v) as [ms|e].
  2:{ destruct Hg as [m' Hg].
      rewrite (do_GET_metrics_raise req u r w _ e Hu Hp Hg) in Hget. discriminate. }
  rewrite (do_GET_metrics_return req u r w _ ms Hu Hp Hg eq_refl) in Hget.
  destruct (encode_utf8 (join [newline] ms)) as [body|e] eqn:Henc; [|discriminate].
  injection Hget as <-. exists (join [newline] ms), body.
  split; [exact Henc|]. split; [simpl; now rewrite <- app_assoc|].
  unfold run_once. rewrite (bind_ok _ _ _ _ _ Hg).
  unfold bind, joined_metrics, print, emit. simpl.
  destruct (forallb stdout_encodable (join [newline] ms)); simpl.
  - now rewrite <- app_assoc.
  - reflexivity.
Qed.

Lemma filter_in_characters (k : pystr) (c1 c2 : N) (k' s : pystr) :
  k = c1 :: c2 :: k' ->
  filter_in k (map (fun c => JStr [c]) s) = Ok [].
Proof.
  intros ->. induction s as [|c s IH]; [reflexivity|].
  cbn [map filter_in py_in]. rewrite IH. cbn [rbind].
  cbn [is_substring is_prefix]. now destruct (c1 =? c)%N.
Qed.

(** X15.  A document whose [nftables] member is a string is taken without
    complaint: its characters are iterated, none of them contains [table],
    [chain] or [counter], and the scrape returns with no line at all. *)
Theorem nftables_string_gives_empty_scrape (r : nft_reply) (w : world) (s : pystr) :
  loaded r = Ok (JStr s) ->
  generate_metrics r w
  = (Ok tt, mkWorld (mkContext (JStr s) (Some [])) (trace w ++ load_events r)).
Proof.
  intros Hload. pose proof (generate_metrics_runs r w) as Hrun.
  rewrite Hload in Hrun.
  assert (Hflat : flatten (JStr s) = Ok []).
  { unfold flatten, pass, selected. cbn [py_iter rbind].
    rewrite (filter_in_characters (lit "table") 116 97 (lit "ble") s eq_refl).
    rewrite (filter_in_characters (lit "chain") 99 104 (lit "ain") s eq_refl).
    rewrite (filter_in_characters (lit "counter") 99 111 (lit "unter") s eq_refl).
    reflexivity. }
  now rewrite Hflat in Hrun.
Qed.

(** X16.  A document whose [nftables] member is [null], a boolean or a
    number cannot be iterated: the scrape raises [TypeError] in the first
    pass, with [ctx.metrics] empty. *)
Theorem nftables_scalar_raises (r : nft_reply) (w : world) (v : json) :
  loaded r = Ok v -> is_scalar v = true ->
  generate_metrics r w
  = (Raise TypeError, mkWorld (mkContext v (Some [])) (trace w ++ load_events r)).
Proof.
  intros Hload Hv.
  assert (Hstep : generate_metrics r w =
    match load_nft_ruleset r (mkWorld (mkContext (ruleset (ctx w)) (Some [])) (trace w)) with
    | (Ok _, w') =>
        (generate_table_metrics ;; generate_chain_metrics ;; generate_counter_metrics)%py w'
    | (Raise e, w') => (Raise e, w')
    end) by reflexivity.
  rewrite load_runs, Hload in Hstep. simpl in Hstep. rewrite Hstep.
  apply bind_raise. unfold generate_table_metrics.
  apply bind_raise. unfold _find_objs, bind, get_ruleset, lift. simpl.
  destruct v; try discriminate; reflexivity.
Qed.

End Exporter.

(** ** The theorems at sample inputs *)

(** C1 at a sample: one table, one chain and two counters among six objects
    give one, one, two and two lines, six in all. *)
Lemma record_counts_on_sample :
  loaded (reply_listing sample_snapshot) = Ok (JArr sample_snapshot) /\
  forallb entity_ok sample_snapshot = true /\
  exists ms,
    generate_metrics repr_str_plain (reply_listing sample_snapshot) initial_world
    = (Ok tt, mkWorld (mkContext (JArr sample_snapshot) (Some ms))
                (trace initial_world ++ load_events (reply_listing sample_snapshot))) /\
    count_name (lit "nft_table") ms = count_kind (lit "table") sample_snapshot /\
    count_name (lit "nft_chain") ms = count_kind (lit "chain") sample_snapshot /\
    count_name (lit "nft_counter_packets") ms = count_kind (lit "counter") sample_snapshot /\
    count_name (lit "nft_counter_bytes") ms = count_kind (lit "counter") sample_snapshot /\
    length ms = count_kind (lit "table") sample_snapshot
                + count_kind (lit "chain") sample_snapshot
                + 2 * count_kind (lit "counter") sample_snapshot.
Proof.
  split; [reflexivity|]. split; [reflexivity|].
  exact (generate_metrics_record_counts repr_str_plain
           (reply_listing sample_snapshot) initial_world sample_snapshot
           eq_refl eq_refl).
Defined.

(** C9 at the same sample. *)
Lemma grouped_by_kind_on_sample :
  generate_metrics repr_str_plain (reply_listing sample_snapshot) initial_world
  = (Ok tt,
     mkWorld
       (mkContext (JArr sample_snapshot)
          (Some [line_table_filter; line_chain_input;
                 line_counter (lit "nft_counter_packets") (lit "c1") (lit "42");
                 line_counter (lit "nft_counter_bytes") (lit "c1") (lit "1000");
                 line_counter (lit "nft_counter_packets") (lit "c2") (lit "0");
                 line_counter (lit "nft_counter_bytes") (lit "c2") (lit "0")]))
       (load_events (reply_listing sample_snapshot))) /\
  exists os T C KK,
    py_iter (JArr sample_snapshot) = Ok os /\
    mapM (table_line repr_str_plain) (filter (py_in_true (lit "table")) os) = Ok T /\
    mapM (chain_line repr_str_plain) (filter (py_in_true (lit "chain")) os) = Ok C /\
    mapM (counter_lines repr_str_plain) (filter (py_in_true (lit "counter")) os) = Ok KK /\
    Some [line_table_filter; line_chain_input;
          line_counter (lit "nft_counter_packets") (lit "c1") (lit "42");
          line_counter (lit "nft_counter_bytes") (lit "c1") (lit "1000");
          line_counter (lit "nft_counter_packets") (lit "c2") (lit "0");
          line_counter (lit "nft_counter_bytes") (lit "c2") (lit "0")]
    = Some (T ++ C ++ concat KK).
Proof.
  assert (Hg : generate_metrics repr_str_plain (reply_listing sample_snapshot) initial_world
    = (Ok tt,
       mkWorld
         (mkContext (JArr sample_snapshot)
            (Some [line_table_filter; line_chain_input;
                   line_counter (lit "nft_counter_packets") (lit "c1") (lit "42");
                   line_counter (lit "nft_counter_bytes") (lit "c1") (lit "1000");
                   line_counter (lit "nft_counter_packets") (lit "c2") (lit "0");
                   line_counter (lit "nft_counter_bytes") (lit "c2") (lit "0")]))
         (load_events (reply_listing sample_snapshot)))) by (vm_compute; reflexivity).
  split; [exact Hg|].
  destruct (metrics_grouped_by_kind repr_str_plain _ _ _ Hg)
    as (os & T & C & KK & _ & Hos & HT & HC & HK & Hm & _).
  exists os, T, C, KK. auto.
Defined.

(** C5 as stated fails: a chain listed before a table gets its line after
    the table's. *)
Lemma chain_listed_first_comes_second :
  generate_metrics repr_str_plain (reply_listing [sample_chain; sample_table]) initial_world
  = (Ok tt,
     mkWorld
       (mkContext (JArr [sample_chain; sample_table])
          (Some [line_table_filter; line_chain_input]))
       (load_events (reply_listing [sample_chain; sample_table]))) /\
  flatten_in_snapshot_order repr_str_plain (JArr [sample_chain; sample_table])
  = Ok [line_chain_input; line_table_filter] /\
  [line_table_filter; line_chain_input] <> [line_chain_input; line_table_filter].
Proof.
  split; [vm_compute; reflexivity|]. split; [vm_compute; reflexivity|].
  vm_compute. discriminate.
Qed.

(** C5, amended, at the sample: three groups, and in the group of the
    counters the first counter's lines come before the second's. *)
Lemma same_kind_order_on_sample :
  loaded (reply_listing sample_snapshot)
  = Ok (JArr ([sample_metainfo; sample_chain; sample_table] ++
              sample_counter :: [sample_rule] ++ sample_second_counter :: [])) /\
  is_kind (lit "counter") sample_counter = true /\
  is_kind (lit "counter") sample_second_counter = true /\
  exists T C K,
    Some [line_table_filter; line_chain_input;
          line_counter (lit "nft_counter_packets") (lit "c1") (lit "42");
          line_counter (lit "nft_counter_bytes") (lit "c1") (lit "1000");
          line_counter (lit "nft_counter_packets") (lit "c2") (lit "0");
          line_counter (lit "nft_counter_bytes") (lit "c2") (lit "0")]
    = Some (T ++ C ++ K) /\
    Forall (fun x => metric_name x = lit "nft_table") T /\
    Forall (fun x => metric_name x = lit "nft_chain") C /\
    Forall (fun x => metric_name x = lit "nft_counter_packets" \/
                     metric_name x = lit "nft_counter_bytes") K /\
    exists a b pre mid post,
      counter_lines repr_str_plain sample_counter = Ok a /\
      counter_lines repr_str_plain sample_second_counter = Ok b /\
      K = pre ++ a ++ mid ++ b ++ post.
Proof.
  split; [reflexivity|]. split; [reflexivity|]. split; [reflexivity|].
  assert (Hg : generate_metrics repr_str_plain (reply_listing sample_snapshot) initial_world
    = (Ok tt,
       mkWorld
         (mkContext (JArr sample_snapshot)
            (Some [line_table_filter; line_chain_input;
                   line_counter (lit "nft_counter_packets") (lit "c1") (lit "42");
                   line_counter (lit "nft_counter_bytes") (lit "c1") (lit "1000");
                   line_counter (lit "nft_counter_packets") (lit "c2") (lit "0");
                   line_counter (lit "nft_counter_bytes") (lit "c2") (lit "0")]))
         (load_events (reply_listing sample_snapshot)))) by (vm_compute; reflexivity).
  destruct (same_kind_records_keep_snapshot_order repr_str_plain _ _ _ Hg)
    as (T & C & K & Hm & HT & HC & HK & Horder).
  exists T, C, K. split; [exact Hm|]. split; [exact HT|]. split; [exact HC|].
  split; [exact HK|].
  destruct (Horder [sample_metainfo; sample_chain; sample_table] [sample_rule] []
              sample_counter sample_second_counter eq_refl) as (_ & _ & Hcounter).
  exact (Hcounter eq_refl eq_refl).
Defined.

(** C2 at samples: [/metrics] with one table listed, [/], and another path. *)
Lemma do_GET_routes_on_samples :
  do_GET repr_str_plain get_metrics (reply_listing [sample_table]) initial_world
  = (Ok tt,
     mkWorld (mkContext (JArr [sample_table]) (Some [line_table_filter]))
       (load_events (reply_listing [sample_table]) ++
        [SendResponse 200;
         SendHeader (lit "Content-Type") CONTENT_TYPE_LATEST;
         EndHeaders;
         WfileWrite line_table_filter])) /\
  do_GET repr_str_plain get_root (reply_listing [sample_table]) initial_world
  = (Ok tt,
     mkWorld (mkContext JNull None)
       [SendResponse 200; EndHeaders; WfileWrite landing_page]) /\
  do_GET repr_str_plain get_favicon (reply_listing [sample_table]) initial_world
  = (Ok tt, mkWorld (mkContext JNull None) [SendResponse 404; EndHeaders]).
Proof.
  destruct (do_GET_routes repr_str_plain get_metrics (plain_url (lit "/metrics"))
              (reply_listing [sample_table]) initial_world eq_refl) as [Hmetrics _].
  destruct (do_GET_routes repr_str_plain get_root (plain_url (lit "/"))
              (reply_listing [sample_table]) initial_world eq_refl) as [_ [Hroot _]].
  destruct (do_GET_routes repr_str_plain get_favicon (plain_url (lit "/favicon.ico"))
              (reply_listing [sample_table]) initial_world eq_refl) as [_ [_ Hother]].
  split; [|split].
  - destruct (Hmetrics eq_refl
                (mkWorld (mkContext (JArr [sample_table]) (Some [line_table_filter]))
                   (load_events (reply_listing [sample_table]))))
      as (ms & Hms & _ & Hbody); [vm_compute; reflexivity|].
    simpl in Hms. injection Hms as <-.
    rewrite (Hbody line_table_filter); [reflexivity|vm_compute; reflexivity].
  - rewrite (Hroot eq_refl). reflexivity.
  - rewrite Hother; [reflexivity| |]; vm_compute; discriminate.
Defined.

(** C2 as stated fails: a request whose target [urlparse] refuses gets no
    response at all, not a 404: [ValueError] leaves [do_GET] before anything
    is sent. *)
Lemma unparsed_target_gets_no_response :
  do_GET repr_str_plain get_bad_host (reply_listing [sample_table]) initial_world
  = (Raise ValueError, initial_world) /\
  wire (trace (snd (do_GET repr_str_plain get_bad_host (reply_listing [sample_table])
                      initial_world))) = [].
Proof.
  split; reflexivity.
Qed.

(** C10 at a sample: [/metrics?x=y] is served as [/metrics] is. *)
Lemma query_ignored_on_sample :
  url get_metrics_with_query = Ok (mkUrl [] [] (lit "/metrics") [] (lit "x=y") []) /\
  url get_metrics = Ok (mkUrl [] [] (lit "/metrics") [] [] []) /\
  do_GET repr_str_plain get_metrics_with_query (reply_listing [sample_table]) initial_world
  = do_GET repr_str_plain get_metrics (reply_listing [sample_table]) initial_world.
Proof.
  split; [reflexivity|]. split; [reflexivity|].
  exact (do_GET_ignores_query repr_str_plain get_metrics_with_query get_metrics
           _ _ (reply_listing [sample_table]) initial_world eq_refl eq_refl eq_refl).
Defined.

(** C3 as stated fails: an engine that reports status -1 next to a
    well-formed listing is not an error to [load_nft_ruleset]; the scrape is
    answered with 200 and the run-once process exits with status 0. *)
Lemma failed_engine_listing_is_loaded :
  rc reply_failed_with_listing = (-1)%Z /\
  load_nft_ruleset reply_failed_with_listing initial_world
  = (Ok tt,
     mkWorld (mkContext (JArr []) None)
       [LogDebug (lit "loading nft ruleset"); NftCmd (lit "list ruleset");
        LogError (error reply_failed_with_listing);
        LogDebug (output reply_failed_with_listing)]) /\
  wire (trace (snd (do_GET repr_str_plain get_metrics reply_failed_with_listing
                      initial_world)))
  = [SendResponse 200; SendHeader (lit "Content-Type") CONTENT_TYPE_LATEST;
     EndHeaders; WfileWrite []] /\
  fst (run_once repr_str_plain utf8_encodable reply_failed_with_listing initial_world) = 0%Z.
Proof.
  repeat split; vm_compute; reflexivity.
Qed.

(** C3, amended, at a sample: the engine failed and printed nothing. *)
Lemma load_logs_engine_failure_on_sample :
  rc reply_failed <> 0%Z /\
  loaded reply_failed = Raise JSONDecodeError /\
  load_nft_ruleset reply_failed initial_world
  = (Raise JSONDecodeError,
     mkWorld (mkContext JNull None)
       [LogDebug (lit "loading nft ruleset"); NftCmd (lit "list ruleset");
        LogError (error reply_failed); LogDebug (output reply_failed)]) /\
  (exists rest,
     wire (trace (snd (do_GET repr_str_plain get_metrics reply_failed initial_world)))
     = wire (trace initial_world) ++ SendResponse 500 :: rest) /\
  fst (run_once repr_str_plain utf8_encodable reply_failed initial_world) = 1%Z.
Proof.
  assert (Hrc : rc reply_failed <> 0%Z) by (vm_compute; discriminate).
  destruct (load_logs_engine_failure_and_parses repr_str_plain utf8_encodable reply_failed
              initial_world Hrc) as [Hload Hraise].
  destruct (Hraise JSONDecodeError eq_refl) as [Hget Hexit].
  split; [exact Hrc|]. split; [reflexivity|]. split; [exact Hload|].
  split; [exact (Hget get_metrics _ eq_refl eq_refl)|exact Hexit].
Defined.

(** C4 on the code: when the engine fails, [do_GET] sends the 500 status line
    and the headers, and then raises [TypeError] out of [wfile.write], which
    is handed a [str]: no body reaches the client, and the exception leaves
    the handler. *)
Theorem metrics_failure_sends_no_body :
  do_GET repr_str_plain get_metrics reply_failed initial_world
  = (Raise TypeError,
     mkWorld (mkContext JNull (Some []))
       [LogDebug (lit "loading nft ruleset"); NftCmd (lit "list ruleset");
        LogError (error reply_failed); LogDebug (output reply_failed);
        SendResponse 500; EndHeaders]) /\
  process_request repr_str_plain (mkContext JNull None) get_metrics reply_failed
  = ([LogDebug (lit "loading nft ruleset"); NftCmd (lit "list ruleset");
      LogError (error reply_failed); LogDebug (output reply_failed);
      SendResponse 500; EndHeaders],
     Some TypeError).
Proof.
  split; vm_compute; reflexivity.
Qed.

(** C6 as stated fails: a backslash in a table's name goes into the line as
    it is, where the exposition format wants it doubled. *)
Lemma backslash_in_name_not_escaped :
  metrics (ctx (snd (generate_metrics repr_str_plain
                       (reply_listing [sample_backslash_table]) initial_world)))
  = Some [lit "nft_table{family=" ++ q (lit "ip") ++ lit ", name=" ++
          q (lit "a" ++ [backslash] ++ lit "b") ++ lit "} 1"] /\
  rmap (encode_record escape_label_value)
       (table_record repr_str_plain sample_backslash_table)
  = Ok (lit "nft_table{family=" ++ q (lit "ip") ++ lit ", name=" ++
        q (lit "a" ++ [backslash; backslash] ++ lit "b") ++ lit "} 1") /\
  table_line repr_str_plain sample_backslash_table
  <> rmap (encode_record escape_label_value)
          (table_record repr_str_plain sample_backslash_table).
Proof.
  split; [vm_compute; reflexivity|]. split; [vm_compute; reflexivity|].
  vm_compute. discriminate.
Qed.

(** C6, amended, at a sample: the label values of the sample table need no
    escaping, and its line is the escaped rendering. *)
Lemma plain_labels_on_sample :
  table_record repr_str_plain sample_table
  = Ok (mkRecord (lit "nft_table")
          [(lit "family", lit "ip"); (lit "name", lit "filter")] (lit "1")) /\
  forallb (fun kv => plain_value (snd kv))
          [(lit "family", lit "ip"); (lit "name", lit "filter")] = true /\
  table_line repr_str_plain sample_table
  = Ok (encode_record escape_label_value
          (mkRecord (lit "nft_table")
             [(lit "family", lit "ip"); (lit "name", lit "filter")] (lit "1"))).
Proof.
  destruct (label_values_rendered_verbatim repr_str_plain) as (Ht & _ & _ & Hplain).
  split; [reflexivity|]. split; [reflexivity|].
  rewrite Ht.
  rewrite <- (Hplain (mkRecord (lit "nft_table")
                        [(lit "family", lit "ip"); (lit "name", lit "filter")] (lit "1"))
                eq_refl).
  reflexivity.
Defined.

(** C7 at a sample: the engine lists nothing but its [metainfo]. *)
Lemma empty_ruleset_on_sample :
  rc (reply_listing [sample_metainfo]) = 0%Z /\
  loaded (reply_listing [sample_metainfo]) = Ok (JArr [sample_metainfo]) /\
  do_GET repr_str_plain get_metrics (reply_listing [sample_metainfo]) initial_world
  = (Ok tt,
     mkWorld (mkContext (JArr [sample_metainfo]) (Some []))
       (trace initial_world ++
        [LogDebug (lit "loading nft ruleset"); NftCmd (lit "list ruleset");
         LogDebug (output (reply_listing [sample_metainfo]));
         SendResponse 200;
         SendHeader (lit "Content-Type") CONTENT_TYPE_LATEST;
         EndHeaders;
         WfileWrite []])) /\
  run_once repr_str_plain utf8_encodable (reply_listing [sample_metainfo]) initial_world
  = (0%Z,
     mkWorld (mkContext (JArr [sample_metainfo]) (Some []))
       (trace initial_world ++
        [LogDebug (lit "loading nft ruleset"); NftCmd (lit "list ruleset");
         LogDebug (output (reply_listing [sample_metainfo])); Print []])).
Proof.
  destruct (empty_ruleset_is_served repr_str_plain utf8_encodable get_metrics (plain_url (lit "/metrics"))
              (reply_listing [sample_metainfo]) initial_world [sample_metainfo]
              eq_refl eq_refl eq_refl) as [Hget Hrun].
  split; [reflexivity|]. split; [reflexivity|].
  split; [exact (Hget eq_refl eq_refl)|exact Hrun].
Defined.

(** ** The further theorems at sample inputs *)

(** X3 at a sample: a table whose name is a lone surrogate. *)
Lemma encode_failure_on_sample :
  url get_metrics = Ok (plain_url (lit "/metrics")) /\
  encode_utf8 (join [newline]
                 [lit "nft_table{family=" ++ q (lit "ip") ++ lit ", name=" ++
                  q [55296%N] ++ lit "} 1"])
  = Raise UnicodeEncodeError /\
  do_GET repr_str_plain get_metrics (reply_listing [sample_surrogate_table]) initial_world
  = (Raise TypeError,
     mkWorld
       (mkContext (JArr [sample_surrogate_table])
          (Some [lit "nft_table{family=" ++ q (lit "ip") ++ lit ", name=" ++
                 q [55296%N] ++ lit "} 1"]))
       (load_events (reply_listing [sample_surrogate_table]) ++
        [SendResponse 200; SendHeader (lit "Content-Type") CONTENT_TYPE_LATEST;
         EndHeaders; SendResponse 500; EndHeaders])).
Proof.
  split; [reflexivity|]. split; [vm_compute; reflexivity|].
  apply (do_GET_encode_failure repr_str_plain get_metrics (plain_url (lit "/metrics"))
           (reply_listing [sample_surrogate_table]) initial_world
           (mkWorld
              (mkContext (JArr [sample_surrogate_table])
                 (Some [lit "nft_table{family=" ++ q (lit "ip") ++ lit ", name=" ++
                        q [55296%N] ++ lit "} 1"]))
              (load_events (reply_listing [sample_surrogate_table])))
           [lit "nft_table{family=" ++ q (lit "ip") ++ lit ", name=" ++
            q [55296%N] ++ lit "} 1"]
           UnicodeEncodeError eq_refl eq_refl);
    [vm_compute; reflexivity | reflexivity | vm_compute; reflexivity].
Defined.

(** X4 at a sample: a table without a name between a table and a chain. *)
Lemma malformed_table_on_sample :
  selected (lit "table") (JArr [sample_table; sample_nameless_table; sample_chain])
  = Ok ([sample_table] ++ sample_nameless_table :: []) /\
  table_line repr_str_plain sample_nameless_table = Raise KeyError /\
  generate_metrics repr_str_plain
    (reply_listing [sample_table; sample_nameless_table; sample_chain]) initial_world
  = (Raise KeyError,
     mkWorld
       (mkContext (JArr [sample_table; sample_nameless_table; sample_chain])
          (Some [line_table_filter]))
       (trace initial_world ++
        load_events (reply_listing [sample_table; sample_nameless_table; sample_chain]))).
Proof.
  split; [vm_compute; reflexivity|]. split; [vm_compute; reflexivity|].
  apply (malformed_table_stops_the_scrape repr_str_plain
           (reply_listing [sample_table; sample_nameless_table; sample_chain])
           initial_world _ [sample_table] [] sample_nameless_table
           [line_table_filter] KeyError);
    vm_compute; reflexivity.
Defined.

(** X5 at a sample: the second counter has no bytes. *)
Lemma counter_without_bytes_on_sample :
  counter_line repr_str_plain (lit "nft_counter_bytes") (lit "bytes")
    sample_counter_without_bytes = Raise KeyError /\
  generate_counter_metrics repr_str_plain
    (mkWorld (mkContext (JArr [sample_counter; sample_counter_without_bytes])
                (Some [line_table_filter])) [])
  = (Raise KeyError,
     with_metrics
       (mkWorld (mkContext (JArr [sample_counter; sample_counter_without_bytes])
                   (Some [line_table_filter])) [])
       ([line_table_filter] ++
        concat [[line_counter (lit "nft_counter_packets") (lit "c1") (lit "42");
                 line_counter (lit "nft_counter_bytes") (lit "c1") (lit "1000")]] ++
        [line_counter (lit "nft_counter_packets") (lit "c3") (lit "7")])).
Proof.
  split; [vm_compute; reflexivity|].
  apply (counter_pass_stops_after_packets repr_str_plain
           (mkWorld (mkContext (JArr [sample_counter; sample_counter_without_bytes])
                       (Some [line_table_filter])) [])
           [line_table_filter] [sample_counter] [] sample_counter_without_bytes
           [[line_counter (lit "nft_counter_packets") (lit "c1") (lit "42");
             line_counter (lit "nft_counter_bytes") (lit "c1") (lit "1000")]]
           (line_counter (lit "nft_counter_packets") (lit "c3") (lit "7")) KeyError);
    vm_compute; reflexivity.
Defined.

(** X6 at a sample: the packets of the sample counter. *)
Lemma counter_value_on_sample :
  counter_line repr_str_plain (lit "nft_counter_packets") (lit "packets") sample_counter
  = Ok (line_counter (lit "nft_counter_packets") (lit "c1") (lit "42")) /\
  int_of_text (last_field (line_counter (lit "nft_counter_packets") (lit "c1") (lit "42")))
  = Some 42%Z.
Proof.
  split; [vm_compute; reflexivity|].
  apply (counter_value_reads_back repr_str_plain (lit "nft_counter_packets")
           (lit "packets") sample_counter); vm_compute; reflexivity.
Defined.

(** X7 at a sample: the sample table listed with and without its handle. *)
Lemma same_table_line_on_sample :
  sample_table <> table_entity (lit "ip") (lit "filter") /\
  table_line repr_str_plain sample_table = Ok line_table_filter /\
  table_line repr_str_plain (table_entity (lit "ip") (lit "filter")) = Ok line_table_filter /\
  py_str repr_str_plain (JStr (lit "ip")) = py_str repr_str_plain (JStr (lit "ip")) /\
  py_str repr_str_plain (JStr (lit "filter")) = py_str repr_str_plain (JStr (lit "filter")).
Proof.
  split; [vm_compute; discriminate|].
  split; [vm_compute; reflexivity|]. split; [vm_compute; reflexivity|].
  apply (table_lines_tell_tables_apart repr_str_plain sample_table
           (table_entity (lit "ip") (lit "filter")) _ _ _ _ line_table_filter);
    vm_compute; reflexivity.
Defined.

(** X8 at a sample: the sample chain listed with and without its handle. *)
Lemma same_chain_line_on_sample :
  chain_line repr_str_plain sample_chain = Ok line_chain_input /\
  chain_line repr_str_plain sample_bare_chain = Ok line_chain_input /\
  py_str repr_str_plain (JStr (lit "ip")) = py_str repr_str_plain (JStr (lit "ip")) /\
  py_str repr_str_plain (JStr (lit "filter")) = py_str repr_str_plain (JStr (lit "filter")) /\
  py_str repr_str_plain (JStr (lit "input")) = py_str repr_str_plain (JStr (lit "input")).
Proof.
  split; [vm_compute; reflexivity|]. split; [vm_compute; reflexivity|].
  apply (chain_lines_tell_chains_apart repr_str_plain sample_chain sample_bare_chain
           _ _ _ _ _ _ line_chain_input);
    vm_compute; reflexivity.
Defined.

(** X9 at a sample: the sample counter listed with and without its handle. *)
Lemma same_counter_line_on_sample :
  counter_line repr_str_plain (lit "nft_counter_bytes") (lit "bytes") sample_counter
  = Ok (line_counter (lit "nft_counter_bytes") (lit "c1") (lit "1000")) /\
  counter_line repr_str_plain (lit "nft_counter_bytes") (lit "bytes") sample_bare_counter
  = Ok (line_counter (lit "nft_counter_bytes") (lit "c1") (lit "1000")) /\
  py_str repr_str_plain (JStr (lit "inet")) = py_str repr_str_plain (JStr (lit "inet")) /\
  py_str repr_str_plain (JStr (lit "t1")) = py_str repr_str_plain (JStr (lit "t1")) /\
  py_str repr_str_plain (JStr (lit "c1")) = py_str repr_str_plain (JStr (lit "c1")) /\
  py_str repr_str_plain (JInt 1000) = py_str repr_str_plain (JInt 1000).
Proof.
  split; [vm_compute; reflexivity|]. split; [vm_compute; reflexivity|].
  apply (counter_lines_tell_counters_apart repr_str_plain (lit "nft_counter_bytes")
           (lit "bytes") sample_counter sample_bare_counter _ _ _ _ _ _ _ _
           (line_counter (lit "nft_counter_bytes") (lit "c1") (lit "1000")));
    vm_compute; reflexivity.
Defined.

(** X11 at samples: the interleaved snapshot is served, and is well formed. *)
Lemma scrape_succeeds_on_sample :
  loaded (reply_listing sample_snapshot) = Ok (JArr sample_snapshot) /\
  forallb is_object sample_snapshot = true /\
  ((exists w',
      generate_metrics repr_str_plain (reply_listing sample_snapshot) initial_world
      = (Ok tt, w')) <->
   forallb entity_ok sample_snapshot = true).
Proof.
  split; [reflexivity|]. split; [reflexivity|].
  exact (scrape_succeeds_iff_entities_ok repr_str_plain (reply_listing sample_snapshot)
           initial_world sample_snapshot eq_refl eq_refl).
Defined.

(** X14 at a sample: one table listed. *)
Lemma metrics_body_on_sample :
  url get_metrics = Ok (plain_url (lit "/metrics")) /\
  exists text body,
    encode_utf8 text = Ok body /\
    load_events (reply_listing [sample_table]) ++
    [SendResponse 200; SendHeader (lit "Content-Type") CONTENT_TYPE_LATEST;
     EndHeaders; WfileWrite line_table_filter]
    = trace initial_world ++ load_events (reply_listing [sample_table]) ++
      [SendResponse 200; SendHeader (lit "Content-Type") CONTENT_TYPE_LATEST;
       EndHeaders; WfileWrite body] /\
    run_once repr_str_plain utf8_encodable (reply_listing [sample_table]) initial_world
    = if forallb utf8_encodable text then
        (0%Z,
         mkWorld (mkContext (JArr [sample_table]) (Some [line_table_filter]))
           (trace initial_world ++ load_events (reply_listing [sample_table]) ++
            [Print text]))
      else
        (1%Z,
         mkWorld (mkContext (JArr [sample_table]) (Some [line_table_filter]))
           (trace initial_world ++ load_events (reply_listing [sample_table]))).
Proof.
  split; [reflexivity|].
  apply (metrics_body_is_run_once_text repr_str_plain utf8_encodable get_metrics
           (plain_url (lit "/metrics")) (reply_listing [sample_table]) initial_world
           (mkWorld (mkContext (JArr [sample_table]) (Some [line_table_filter]))
              (load_events (reply_listing [sample_table]) ++
               [SendResponse 200; SendHeader (lit "Content-Type") CONTENT_TYPE_LATEST;
                EndHeaders; WfileWrite line_table_filter]))
           eq_refl eq_refl).
  vm_compute. reflexivity.
Defined.

(** X15 at a sample: the member [nftables] is the string [table]. *)
Lemma nftables_string_on_sample :
  loaded (reply_document (JObj [(lit "nftables", JStr (lit "table"))]))
  = Ok (JStr (lit "table")) /\
  generate_metrics repr_str_plain
    (reply_document (JObj [(lit "nftables", JStr (lit "table"))])) initial_world
  = (Ok tt,
     mkWorld (mkContext (JStr (lit "table")) (Some []))
       (trace initial_world ++
        load_events (reply_document (JObj [(lit "nftables", JStr (lit "table"))])))).
Proof.
  split; [reflexivity|].
  exact (nftables_string_gives_empty_scrape repr_str_plain
           (reply_document (JObj [(lit "nftables", JStr (lit "table"))]))
           initial_world (lit "table") eq_refl).
Defined.

(** X16 at a sample: the member [nftables] is [null]. *)
Lemma nftables_null_on_sample :
  loaded (reply_document (JObj [(lit "nftables", JNull)])) = Ok JNull /\
  is_scalar JNull = true /\
  generate_metrics repr_str_plain
    (reply_document (JObj [(lit "nftables", JNull)])) initial_world
  = (Raise TypeError,
     mkWorld (mkContext JNull (Some []))
       (trace initial_world ++
        load_events (reply_document (JObj [(lit "nftables", JNull)])))).
Proof.
  split; [reflexivity|]. split; [reflexivity|].
  exact (nftables_scalar_raises repr_str_plain
           (reply_document (JObj [(lit "nftables", JNull)])) initial_world JNull
           eq_refl eq_refl).
Defined.

(** X13 at a sample: a table whose name is a lone surrogate, on a UTF-8
    standard output: the lines are made, nothing is printed, the exit status
    is 1. *)
Lemma run_once_on_surrogate_sample :
  (v <-? loaded (reply_listing [sample_surrogate_table]) ;;
   flatten repr_str_plain v)%result
  = Ok [lit "nft_table{family=" ++ q (lit "ip") ++ lit ", name=" ++
        q [55296%N] ++ lit "} 1"] /\
  fst (run_once repr_str_plain utf8_encodable
         (reply_listing [sample_surrogate_table]) initial_world) = 1%Z /\
  trace (snd (run_once repr_str_plain utf8_encodable
                (reply_listing [sample_surrogate_table]) initial_world))
  = trace initial_world ++ load_events (reply_listing [sample_surrogate_table]).
Proof.
  split; [vm_compute; reflexivity|].
  exact (run_once_outcome repr_str_plain utf8_encodable
           (reply_listing [sample_surrogate_table]) initial_world).
Defined.
